(** * discord-mcp: the tool dispatcher and the paginated history scanner

    A shallow embedding of [src/index.ts] (class [DiscordMCPServer]):
    the [CallToolRequestSchema] handler, the five tool methods and in
    particular [getMessagesAdvanced], the batch-wise backward scan of a
    channel history with its date, keyword, author and attachment filters.

    Conventions of the embedding.
    - A value that may be [undefined] in JavaScript is an [option]; the
      truthiness tests of the source ([x || d], [if (x)], [x ? a : b]) are
      written out ([truthy], [orElse], [targetLimit]).
    - A JavaScript number that arrives in the arguments of a tool call
      (the [limit], of schema type ['number']) is a finite number, whole
      or fractional: a rational, [Js.Number].  A length, a size or an
      epoch-millisecond value that the program itself produces is a whole
      number ([nat] or [Z]).  A [Date] is its epoch-millisecond value,
      [None] standing for an Invalid Date (time value NaN).
    - A [throw] is the [Throw] completion of the [Completion] monad; an
      [await]ed rejected promise is the same thing.
    - The chat platform (discord.js [Client], [TextChannel]) is a record of
      oracles.  [messages_fetch] receives the number of fetches issued so
      far on the channel, so the remote history may change between calls.
    - A template literal whose holes are numbers or [JSON.stringify] calls
      is the list of its pieces, in source order. *)

From Stdlib Require Import ZArith QArith Qround List String Ascii Bool Arith.
From Stdlib Require Import Lia Sorted Permutation DecimalString.
Import ListNotations.

Local Open Scope string_scope.
Local Open Scope list_scope.
Local Open Scope Z_scope.

(* ------------------------------------------------------------------ *)
(** ** JavaScript values used by the source *)

Module Js.

(** [if (s)] on an optional string: [undefined] and [''] are falsy. *)
Definition truthy (s : option string) : option string :=
  match s with
  | Some EmptyString => None
  | other => other
  end.

(** [s || d] on an optional string. *)
Definition orElse (s : option string) (d : string) : string :=
  match truthy s with
  | Some v => v
  | None => d
  end.

(** A finite number: whole or fractional, of either sign. *)
Definition Number : Type := Q.

(** An array length, as a number. *)
Definition ofNat (n : nat) : Number := inject_Z (Z.of_nat n).

(** [x < y] and [x >= y] on finite numbers. *)
Definition lt (x y : Number) : bool :=
  match (x ?= y)%Q with
  | Lt => true
  | _ => false
  end.

Definition ge (x y : Number) : bool :=
  match (x ?= y)%Q with
  | Lt => false
  | _ => true
  end.

(** [n || d] on an optional number: [undefined] and [0] are falsy. *)
Definition numOr (n : option Number) (d : Number) : Number :=
  match n with
  | Some v => if Qeq_bool v 0 then d else v
  | None => d
  end.

(** [b || false] on an optional boolean. *)
Definition boolOr (b : option bool) : bool :=
  match b with
  | Some v => v
  | None => false
  end.

(** The line feed of the template literals. *)
Definition nl : string := String (ascii_of_nat 10) EmptyString.

(** [String.prototype.toLowerCase], on the ASCII range: the letters [A]
    to [Z] are folded and every other character is kept, where the
    runtime also folds the capital letters beyond ASCII. *)
Definition lowerChar (c : ascii) : ascii :=
  let n := nat_of_ascii c in
  if (Nat.leb 65 n && Nat.leb n 90)%bool then ascii_of_nat (n + 32)%nat
  else c.

Fixpoint toLowerCase (s : string) : string :=
  match s with
  | EmptyString => EmptyString
  | String c rest => String (lowerChar c) (toLowerCase rest)
  end.

(** [s.startsWith(t)]. *)
Fixpoint startsWith (s t : string) {struct t} : bool :=
  match t, s with
  | EmptyString, _ => true
  | String _ _, EmptyString => false
  | String b t', String a s' => (Ascii.eqb a b && startsWith s' t')%bool
  end.

(** [s.includes(t)]: [t] occurs in [s] at some position. *)
Fixpoint includes (s t : string) : bool :=
  (startsWith s t ||
   match s with
   | EmptyString => false
   | String _ s' => includes s' t
   end)%bool.

(** [`${s}`] for an optional string. *)
Definition show (s : option string) : string :=
  match s with
  | Some v => v
  | None => "undefined"
  end.

(** A thrown value: an [Error] object (with its [name] and [message]) or
    any other value, kept as its [String(v)] rendering. *)
Inductive Exn : Type :=
| JsError (name message : string)
| JsValue (rendering : string).

Definition mkError (message : string) : Exn := JsError "Error" message.

(** [String(error)]; for an [Error] this is [Error.prototype.toString]. *)
Definition toString (e : Exn) : string :=
  match e with
  | JsError EmptyString message => message
  | JsError name EmptyString => name
  | JsError name message => (name ++ ": " ++ message)%string
  | JsValue rendering => rendering
  end.

(** [error instanceof Error ? error.message : String(error)]. *)
Definition messageOf (e : Exn) : string :=
  match e with
  | JsError _ message => message
  | JsValue rendering => rendering
  end.

(** A [Date]: its time value, [None] for an Invalid Date. *)
Definition Date := option Z.

(** [t < d] and [t > d] for a valid instant [t] and a [Date] [d]: a
    comparison with NaN is false. *)
Definition before (t : Z) (d : Date) : bool :=
  match d with
  | Some v => t <? v
  | None => false
  end.

Definition after (t : Z) (d : Date) : bool :=
  match d with
  | Some v => v <? t
  | None => false
  end.

End Js.

(** Normal and abrupt completion of a method body. *)
Inductive Completion (A : Type) : Type :=
| Normal (a : A)
| Throw (e : Js.Exn).

Arguments Normal {A} a.
Arguments Throw {A} e.

Definition bind {A B : Type} (c : Completion A) (k : A -> Completion B)
  : Completion B :=
  match c with
  | Normal a => k a
  | Throw e => Throw e
  end.

Notation "x <- c ;; k" := (bind c (fun x => k))
  (at level 61, c at next level, right associativity).

(* ------------------------------------------------------------------ *)
(** ** The data of the chat platform *)

Module User.
Record t : Type := make { username : string; id : string }.
End User.

Module Attachment.
Record t : Type := make {
  name : string;
  url : string;
  size : Z;
  contentType : option string
}.
End Attachment.

Module Message.
Record t : Type := make {
  id : string;
  author : User.t;
  content : string;
  createdTimestamp : Z;            (* [createdAt] is [new Date] of it *)
  attachments : list Attachment.t;
  embeds : nat;                    (* [msg.embeds.length] *)
  reactions : nat                  (* [msg.reactions.cache.size] *)
}.
End Message.

Module FetchOptions.
Record t : Type := make {
  limit : Js.Number;
  before : option string;
  after : option string
}.
End FetchOptions.

(** What [messages.fetch(options)] resolves to. *)
Inductive FetchResult : Type :=
| OneMessage (m : Message.t)
| Collection (l : list Message.t).

(** What [channel.send] is given. *)
Inductive SendPayload : Type :=
| SendText (message : option string)
| SendFiles (content : string) (files : list (option string)).

Module Channel.
Record t : Type := make {
  isTextBased : bool;
  messages_fetch : nat -> FetchOptions.t -> Completion FetchResult;
  send : SendPayload -> Completion string      (* the sent message's id *)
}.
End Channel.

Module Client.
Record t : Type := make {
  isReady : bool;
  token : option string;            (* [process.env.DISCORD_BOT_TOKEN] *)
  login : string -> Completion unit;
  channels_fetch : option string -> Completion (option Channel.t)
}.
End Client.

(* ------------------------------------------------------------------ *)
(** ** Requests, projections and responses *)

(** The [params] object of [getMessagesAdvanced]. *)
Module Params.
Record t : Type := make {
  channelId : option string;
  limit : option Js.Number;
  before : option string;
  after : option string;
  startDate : option string;
  endDate : option string;
  keyword : option string;
  author : option string;
  hasAttachments : option bool
}.
End Params.

(** [request.params.arguments] of a tool call. *)
Module Args.
Record t : Type := make {
  channel_id : option string;
  message : option string;
  image_path : option string;
  limit : option Js.Number;
  before : option string;
  after : option string;
  start_date : option string;
  end_date : option string;
  keyword : option string;
  author : option string;
  has_attachments : option bool
}.
End Args.

Module Request.
Record t : Type := make { name : string; arguments : option Args.t }.
End Request.

(** The attachment object pushed by [getMessagesAdvanced]. *)
Module AttachmentInfo.
Record t : Type := make {
  name : string;
  url : string;
  size : Z;
  contentType : option string
}.
End AttachmentInfo.

(** The message object pushed onto [allMessages].  [timestamp] is the
    instant whose [toISOString()] rendering the source stores. *)
Module MessageInfo.
Record t : Type := make {
  id : string;
  author : string;
  authorId : string;
  content : string;
  timestamp : Z;
  attachments : list AttachmentInfo.t;
  embeds : nat;
  reactions : nat
}.
End MessageInfo.

(** The objects of [getMessages] and [getImages]. *)
Module BasicInfo.
Record t : Type := make {
  id : string;
  author : string;
  content : string;
  timestamp : Z;
  attachments : list (string * string * Z)     (* name, url, size *)
}.
End BasicInfo.

Module ImageInfo.
Record t : Type := make {
  messageId : string;
  author : string;
  timestamp : Z;
  filename : string;
  url : string;
  size : Z;
  contentType : string
}.
End ImageInfo.

(** [filters.dateRange]: ['none'], or [`${from} to ${to}`] where each end
    is an ISO rendering or ['any'] ([None]). *)
Inductive DateRange : Type :=
| NoRange
| FromTo (from to : option Z).

Module Summary.
Record filters_t : Type := make_filters {
  dateRange : DateRange;
  keyword : string;
  author : string;
  hasAttachments : bool
}.
Record pagination_t : Type := make_pagination {
  before : string;
  after : string;
  totalFetched : nat
}.
Record t : Type := make {
  total : nat;
  filters : filters_t;
  pagination : pagination_t
}.
End Summary.

(** The argument of a [JSON.stringify(_, null, 2)] call. *)
Inductive Json : Type :=
| JMessages (allMessages : list MessageInfo.t)
| JSummary (summary : Summary.t)
| JMessageData (messageData : list BasicInfo.t)
| JImageData (imageData : list ImageInfo.t).

(** One piece of a template literal. *)
Inductive Piece : Type :=
| Lit (s : string)
| Count (n : nat)              (* [${xs.length}] *)
| Stringify (j : Json).

Definition Text : Type := list Piece.

Module ToolResult.
Record item : Type := make_item { type : string; text : Text }.
Record t : Type := make { content : list item }.
End ToolResult.

(** [{ content: [{ type: 'text', text }] }]. *)
Definition textResult (text : Text) : ToolResult.t :=
  ToolResult.make [ToolResult.make_item "text" text].

(* ------------------------------------------------------------------ *)
(** ** Helpers of the scan *)

(** [messageArray.sort((a, b) => b.createdTimestamp - a.createdTimestamp)]:
    the stable sort, newest first. *)
Fixpoint insert (m : Message.t) (l : list Message.t) : list Message.t :=
  match l with
  | [] => [m]
  | x :: rest =>
      if Message.createdTimestamp x <=? Message.createdTimestamp m
      then m :: x :: rest
      else x :: insert m rest
  end.

Fixpoint sort (l : list Message.t) : list Message.t :=
  match l with
  | [] => []
  | m :: rest => insert m (sort rest)
  end.

(** [messageArray[messageArray.length - 1]]. *)
Fixpoint lastOf (l : list Message.t) : option Message.t :=
  match l with
  | [] => None
  | [m] => Some m
  | _ :: rest => lastOf rest
  end.

Definition projectAttachment (att : Attachment.t) : AttachmentInfo.t :=
  AttachmentInfo.make (Attachment.name att) (Attachment.url att)
    (Attachment.size att) (Attachment.contentType att).

(** The object literal pushed onto [allMessages]. *)
Definition project (msg : Message.t) : MessageInfo.t :=
  MessageInfo.make
    (Message.id msg)
    (User.username (Message.author msg))
    (User.id (Message.author msg))
    (Message.content msg)
    (Message.createdTimestamp msg)
    (map projectAttachment (Message.attachments msg))
    (Message.embeds msg)
    (Message.reactions msg).

(** [fetchResult instanceof Message ? new Collection([[id, it]]) : it],
    then [Array.from(messages.values())]. *)
Definition valuesOf (fetchResult : FetchResult) : list Message.t :=
  match fetchResult with
  | OneMessage m => [m]
  | Collection l => l
  end.

Definition maxIterations : nat := 10.

(** [params.limit || 50]. *)
Definition targetLimit (params : Params.t) : Js.Number :=
  Js.numOr (Params.limit params) 50%Q.

(** [x ? new Date(x) : null], given the runtime's parser. *)
Definition dateOf (parseDate : string -> Js.Date) (x : option string)
  : option Js.Date :=
  match Js.truthy x with
  | Some s => Some (parseDate s)
  | None => None
  end.

(** [d && msg.createdAt < d] and [d && msg.createdAt > d]. *)
Definition olderThan (msg : Message.t) (d : option Js.Date) : bool :=
  match d with
  | Some date => Js.before (Message.createdTimestamp msg) date
  | None => false
  end.

Definition newerThan (msg : Message.t) (d : option Js.Date) : bool :=
  match d with
  | Some date => Js.after (Message.createdTimestamp msg) date
  | None => false
  end.

(** [params.keyword && !content.toLowerCase().includes(kw.toLowerCase())]. *)
Definition keywordFails (params : Params.t) (msg : Message.t) : bool :=
  match Js.truthy (Params.keyword params) with
  | Some kw =>
      negb (Js.includes (Js.toLowerCase (Message.content msg))
                        (Js.toLowerCase kw))
  | None => false
  end.

(** [params.author] set and neither [username] nor [id] equal to it. *)
Definition authorFails (params : Params.t) (msg : Message.t) : bool :=
  match Js.truthy (Params.author params) with
  | Some a =>
      let authorMatch :=
        (String.eqb (User.username (Message.author msg)) a
         || String.eqb (User.id (Message.author msg)) a)%bool in
      negb authorMatch
  | None => false
  end.

(** [params.hasAttachments && msg.attachments.size === 0]. *)
Definition attachmentFails (params : Params.t) (msg : Message.t) : bool :=
  (Js.boolOr (Params.hasAttachments params)
   && (List.length (Message.attachments msg) =? 0)%nat)%bool.

(* ------------------------------------------------------------------ *)
(** ** The scan of [getMessagesAdvanced] *)

(** The mutable locals of the method.  [calls] is not in the source: it
    records the options of every [messages.fetch] issued so far. *)
Record ScanState : Type := mkState {
  allMessages : list MessageInfo.t;
  lastMessageId : option string;
  totalFetched : nat;
  iterations : nat;
  calls : list FetchOptions.t
}.

(** How the [for ... of] over one sorted batch ends: by the [return] of
    the start-date test (with the message that triggered it), or by
    running off the array or by the [break] on the target. *)
Inductive ForExit : Type :=
| Returned (acc : list MessageInfo.t) (msg : Message.t)
| Completed (acc : list MessageInfo.t).

(** How the [while] ends. *)
Inductive ScanExit : Type :=
| ShortCircuit (acc : list MessageInfo.t) (msg : Message.t)
               (issued : list FetchOptions.t)
| FetchThrew (e : Js.Exn) (issued : list FetchOptions.t)
| LoopDone (st : ScanState).

Section Scan.

Variable params : Params.t.
Variables startDate endDate : option Js.Date.
Variable textChannel : Channel.t.

(** [for (const msg of messageArray) { ... }]. *)
Fixpoint for_loop (acc : list MessageInfo.t) (messageArray : list Message.t)
  : ForExit :=
  match messageArray with
  | [] => Completed acc
  | msg :: rest =>
      if olderThan msg startDate then Returned acc msg
      else if newerThan msg endDate then for_loop acc rest
      else if keywordFails params msg then for_loop acc rest
      else if authorFails params msg then for_loop acc rest
      else if attachmentFails params msg then for_loop acc rest
      else
        let acc' := acc ++ [project msg] in
        if Js.ge (Js.ofNat (List.length acc')) (targetLimit params)
        then Completed acc'
        else for_loop acc' rest
  end.

(** The options of the next [messages.fetch]. *)
Definition fetchOptionsOf (st : ScanState) : FetchOptions.t :=
  FetchOptions.make 100%Q
    (Js.truthy (lastMessageId st))
    (Js.truthy (Params.after params)).

(** [while (allMessages.length < targetLimit && iterations <
    maxIterations)].  [budget] is [maxIterations - iterations]: the
    second test is [budget <> 0], and [iterations++] takes one off. *)
Fixpoint while_loop (budget : nat) (st : ScanState) : ScanExit :=
  if Js.lt (Js.ofNat (List.length (allMessages st))) (targetLimit params) then
    match budget with
    | O => LoopDone st
    | S budget' =>
        let iterations' := S (iterations st) in
        let fetchOptions := fetchOptionsOf st in
        let calls' := calls st ++ [fetchOptions] in
        match Channel.messages_fetch textChannel
                (List.length (calls st)) fetchOptions with
        | Throw e => FetchThrew e calls'
        | Normal fetchResult =>
            let messages := valuesOf fetchResult in
            if (List.length messages =? 0)%nat then
              LoopDone (mkState (allMessages st) (lastMessageId st)
                          (totalFetched st) iterations' calls')
            else
              let messageArray := sort messages in
              match for_loop (allMessages st) messageArray with
              | Returned acc msg => ShortCircuit acc msg calls'
              | Completed acc =>
                  let lastMessageId' :=
                    match lastOf messageArray with
                    | Some lastMessage => Some (Message.id lastMessage)
                    | None => lastMessageId st
                    end in
                  let st' :=
                    mkState acc lastMessageId'
                      (totalFetched st + List.length messages)
                      iterations' calls' in
                  if (List.length messages <? 100)%nat then LoopDone st'
                  else while_loop budget' st'
              end
        end
    end
  else LoopDone st.

(** The state before the loop and the whole loop. *)
Definition initialState : ScanState :=
  mkState [] (Params.before params) 0 0 [].

Definition scan : ScanExit := while_loop maxIterations initialState.

End Scan.

Arguments scan : simpl never.

(** The [messages.fetch] calls a scan issued. *)
Definition issuedBy (x : ScanExit) : list FetchOptions.t :=
  match x with
  | ShortCircuit _ _ issued => issued
  | FetchThrew _ issued => issued
  | LoopDone st => calls st
  end.

(** [d.toISOString()]: a [RangeError] on an Invalid Date. *)
Definition toISOString (d : Js.Date) : Completion Z :=
  match d with
  | Some t => Normal t
  | None => Throw (Js.JsError "RangeError" "Invalid time value")
  end.

(** [d ? d.toISOString() : 'any']. *)
Definition isoOrAny (d : option Js.Date) : Completion (option Z) :=
  match d with
  | Some date => t <- toISOString date ;; Normal (Some t)
  | None => Normal None
  end.

(** [startDate || endDate ? `${...} to ${...}` : 'none']. *)
Definition dateRangeOf (startDate endDate : option Js.Date)
  : Completion DateRange :=
  match startDate, endDate with
  | None, None => Normal NoRange
  | _, _ =>
      from <- isoOrAny startDate ;;
      to <- isoOrAny endDate ;;
      Normal (FromTo from to)
  end.

(** The [summary] object literal. *)
Definition summaryOf (params : Params.t) (startDate endDate : option Js.Date)
    (st : ScanState) : Completion Summary.t :=
  range <- dateRangeOf startDate endDate ;;
  Normal
    (Summary.make
       (List.length (allMessages st))
       (Summary.make_filters range
          (Js.orElse (Params.keyword params) "none")
          (Js.orElse (Params.author params) "any")
          (Js.boolOr (Params.hasAttachments params)))
       (Summary.make_pagination
          (Js.orElse (Params.before params) "none")
          (Js.orElse (Params.after params) "none")
          (totalFetched st))).

(** The text of the [return] inside the [for]. *)
Definition shortCircuitText (acc : list MessageInfo.t) : Text :=
  [ Lit "Retrieved ";
    Count (List.length acc);
    Lit (" messages matching criteria:" ++ Js.nl ++ Js.nl)%string;
    Stringify (JMessages acc) ].

(** The text of the final [return]. *)
Definition advancedText (summary : Summary.t) (acc : list MessageInfo.t)
  : Text :=
  [ Lit ("Advanced search results:" ++ Js.nl ++ Js.nl ++ "Summary: ")%string;
    Stringify (JSummary summary);
    Lit (Js.nl ++ Js.nl ++ "Messages:" ++ Js.nl)%string;
    Stringify (JMessages acc) ].

Definition channelError : Js.Exn :=
  Js.mkError "Channel not found or is not a text channel".

Section Server.

(** [new Date(string)] of the JavaScript runtime. *)
Variable parseDate : string -> Js.Date.

Variable discordClient : Client.t.

Definition ensureDiscordReady : Completion unit :=
  if Client.isReady discordClient then Normal tt
  else
    match Js.truthy (Client.token discordClient) with
    | None =>
        Throw (Js.mkError
                 "DISCORD_BOT_TOKEN environment variable is required")
    | Some token => Client.login discordClient token
    end.

(** [channels.fetch(channelId)] and the test that follows it in every
    tool method. *)
Definition fetchTextChannel (channelId : option string)
  : Completion Channel.t :=
  channel <- Client.channels_fetch discordClient channelId ;;
  match channel with
  | None => Throw channelError
  | Some ch =>
      if Channel.isTextBased ch then Normal ch else Throw channelError
  end.

Definition getMessagesAdvanced (params : Params.t)
  : Completion ToolResult.t :=
  _ <- ensureDiscordReady ;;
  textChannel <- fetchTextChannel (Params.channelId params) ;;
  let startDate := dateOf parseDate (Params.startDate params) in
  let endDate := dateOf parseDate (Params.endDate params) in
  match scan params startDate endDate textChannel with
  | ShortCircuit acc _ _ => Normal (textResult (shortCircuitText acc))
  | FetchThrew e _ => Throw e
  | LoopDone st =>
      summary <- summaryOf params startDate endDate st ;;
      Normal (textResult (advancedText summary (allMessages st)))
  end.

(** The [messages.fetch] calls one invocation of [getMessagesAdvanced]
    issues (none when the method throws before its loop). *)
Definition advancedFetches (params : Params.t) : list FetchOptions.t :=
  match ensureDiscordReady with
  | Throw _ => []
  | Normal _ =>
      match fetchTextChannel (Params.channelId params) with
      | Throw _ => []
      | Normal textChannel =>
          issuedBy
            (scan params
               (dateOf parseDate (Params.startDate params))
               (dateOf parseDate (Params.endDate params))
               textChannel)
      end
  end.

Definition sendMessage (channelId message : option string)
  : Completion ToolResult.t :=
  _ <- ensureDiscordReady ;;
  channel <- fetchTextChannel channelId ;;
  sentId <- Channel.send channel (SendText message) ;;
  Normal
    (textResult
       [ Lit ("Message sent successfully to channel " ++ Js.show channelId
              ++ ". Message ID: " ++ sentId)%string ]).

Definition sendImage (channelId imagePath message : option string)
  : Completion ToolResult.t :=
  _ <- ensureDiscordReady ;;
  channel <- fetchTextChannel channelId ;;
  match Channel.send channel
          (SendFiles (Js.orElse message "") [imagePath]) with
  | Normal sentId =>
      Normal
        (textResult
           [ Lit ("Image sent successfully to channel "
                  ++ Js.show channelId ++ ". Message ID: " ++ sentId)%string ])
  | Throw error =>
      Throw (Js.mkError
               ("Failed to send image: " ++ Js.toString error)%string)
  end.

Definition basicInfo (msg : Message.t) : BasicInfo.t :=
  BasicInfo.make
    (Message.id msg)
    (User.username (Message.author msg))
    (Message.content msg)
    (Message.createdTimestamp msg)
    (map (fun att => (Attachment.name att, Attachment.url att,
                      Attachment.size att))
         (Message.attachments msg)).

(** A [Collection] method called on what [messages.fetch] resolved to. *)
Definition asCollection (method : string) (fetchResult : FetchResult)
  : Completion (list Message.t) :=
  match fetchResult with
  | Collection l => Normal l
  | OneMessage _ =>
      Throw (Js.JsError "TypeError"
               ("messages." ++ method ++ " is not a function")%string)
  end.

Definition getMessages (channelId : option string) (limit : Js.Number)
  : Completion ToolResult.t :=
  _ <- ensureDiscordReady ;;
  channel <- fetchTextChannel channelId ;;
  fetchResult <-
    Channel.messages_fetch channel 0%nat (FetchOptions.make limit None None) ;;
  messages <- asCollection "map" fetchResult ;;
  let messageData := map basicInfo messages in
  Normal
    (textResult
       [ Lit "Retrieved ";
         Count (List.length messageData);
         Lit (" messages from channel " ++ Js.show channelId ++ ":"
              ++ Js.nl ++ Js.nl)%string;
         Stringify (JMessageData messageData) ]).

(** The inner [forEach] of [getImages], for one message. *)
Definition imagesOf (msg : Message.t) : list ImageInfo.t :=
  flat_map
    (fun attachment =>
       match Attachment.contentType attachment with
       | Some contentType =>
           if Js.startsWith contentType "image/" then
             [ ImageInfo.make
                 (Message.id msg)
                 (User.username (Message.author msg))
                 (Message.createdTimestamp msg)
                 (Attachment.name attachment)
                 (Attachment.url attachment)
                 (Attachment.size attachment)
                 contentType ]
           else []
       | None => []
       end)
    (Message.attachments msg).

Definition getImages (channelId : option string) (limit : Js.Number)
  : Completion ToolResult.t :=
  _ <- ensureDiscordReady ;;
  channel <- fetchTextChannel channelId ;;
  fetchResult <-
    Channel.messages_fetch channel 0%nat (FetchOptions.make limit None None) ;;
  messages <- asCollection "forEach" fetchResult ;;
  let imageData := flat_map imagesOf messages in
  Normal
    (textResult
       [ Lit "Retrieved ";
         Count (List.length imageData);
         Lit (" images from channel " ++ Js.show channelId ++ ":"
              ++ Js.nl ++ Js.nl)%string;
         Stringify (JImageData imageData) ]).

(** The [params] object the dispatcher builds for the advanced tool. *)
Definition advancedParams (args : Args.t) : Params.t :=
  Params.make
    (Args.channel_id args)
    (Some (Js.numOr (Args.limit args) 50%Q))
    (Args.before args)
    (Args.after args)
    (Args.start_date args)
    (Args.end_date args)
    (Args.keyword args)
    (Args.author args)
    (Args.has_attachments args).

(** The body of the [try] of the [CallToolRequestSchema] handler. *)
Definition toolSwitch (request : Request.t) : Completion ToolResult.t :=
  match Request.arguments request with
  | None => Throw (Js.mkError "Arguments are required")
  | Some args =>
      let name := Request.name request in
      if String.eqb name "discord_send_message" then
        sendMessage (Args.channel_id args) (Args.message args)
      else if String.eqb name "discord_send_image" then
        sendImage (Args.channel_id args) (Args.image_path args)
          (Args.message args)
      else if String.eqb name "discord_get_messages" then
        getMessages (Args.channel_id args) (Js.numOr (Args.limit args) 10%Q)
      else if String.eqb name "discord_get_images" then
        getImages (Args.channel_id args) (Js.numOr (Args.limit args) 50%Q)
      else if String.eqb name "discord_get_messages_advanced" then
        getMessagesAdvanced (advancedParams args)
      else Throw (Js.mkError ("Unknown tool: " ++ name)%string)
  end.

(** The text of the [catch] of the handler. *)
Definition errorText (error : Js.Exn) : Text :=
  [ Lit ("Error: " ++ Js.messageOf error)%string ].

(** The [CallToolRequestSchema] handler: [try { ... } catch (error)]. *)
Definition callToolHandler (request : Request.t) : ToolResult.t :=
  match toolSwitch request with
  | Normal result => result
  | Throw error => textResult (errorText error)
  end.

End Server.

(* ------------------------------------------------------------------ *)
(** ** The vocabulary of the properties *)

Definition textOf (result : ToolResult.t) : Text :=
  flat_map ToolResult.text (ToolResult.content result).

(** The [JSON.stringify] arguments of a text, in order. *)
Definition jsonPieces (text : Text) : list Json :=
  flat_map (fun p => match p with Stringify j => [j] | _ => [] end) text.

(** The message objects a response carries. *)
Definition messagesOf (result : ToolResult.t) : list MessageInfo.t :=
  flat_map (fun j => match j with JMessages l => l | _ => [] end)
    (jsonPieces (textOf result)).

(** The summary records a response carries. *)
Definition summariesOf (result : ToolResult.t) : list Summary.t :=
  flat_map (fun j => match j with JSummary s => [s] | _ => [] end)
    (jsonPieces (textOf result)).

(** A text that opens with a line of plain text and then holds a summary
    record followed by a message array, and no other encoded value. *)
Definition summaryThenMessages (text : Text) : bool :=
  match text with
  | Lit _ :: _ | Count _ :: _ =>
      match jsonPieces text with
      | [JSummary _; JMessages _] => true
      | _ => false
      end
  | _ => false
  end.

(** The response of the [catch] branch: one text item, ["Error: ..."]. *)
Definition isErrorResult (result : ToolResult.t) : bool :=
  match ToolResult.content result with
  | [item] =>
      match ToolResult.text item with
      | [Lit s] =>
          (String.eqb (ToolResult.type item) "text"
           && Js.startsWith s "Error: ")%bool
      | _ => false
      end
  | _ => false
  end.

(** [t] occurs in [s] as a substring. *)
Definition Occurs (t s : string) : Prop :=
  exists a b, s = (a ++ t ++ b)%string.

(** A returned message object satisfies every filter of the query that is
    in force: a filter string counts as supplied when it is truthy, a date
    when in addition the runtime parses it to an instant. *)
Record Satisfies (parseDate : string -> Js.Date) (params : Params.t)
    (m : MessageInfo.t) : Prop := mkSatisfies {
  sat_keyword :
    forall kw, Params.keyword params = Some kw ->
      Occurs (Js.toLowerCase kw) (Js.toLowerCase (MessageInfo.content m));
  sat_author :
    forall a, Js.truthy (Params.author params) = Some a ->
      MessageInfo.author m = a \/ MessageInfo.authorId m = a;
  sat_attachments :
    Params.hasAttachments params = Some true ->
      MessageInfo.attachments m <> [];
  sat_start :
    forall s t, Js.truthy (Params.startDate params) = Some s ->
      parseDate s = Some t -> t <= MessageInfo.timestamp m;
  sat_end :
    forall s t, Js.truthy (Params.endDate params) = Some s ->
      parseDate s = Some t -> MessageInfo.timestamp m <= t
}.

(** No later element is newer than an earlier one. *)
Definition NonIncreasing (l : list MessageInfo.t) : Prop :=
  StronglySorted
    (fun a b => MessageInfo.timestamp b <= MessageInfo.timestamp a) l.

(** A batch in the order the sort leaves it: newest first. *)
Definition Descending (l : list Message.t) : Prop :=
  StronglySorted
    (fun a b => Message.createdTimestamp b <= Message.createdTimestamp a) l.

(** The accumulator a [for ... of] leaves behind. *)
Definition accOf (x : ForExit) : list MessageInfo.t :=
  match x with
  | Returned acc _ => acc
  | Completed acc => acc
  end.

(** None of the five tests of the loop body fires on [msg]. *)
Definition passes (params : Params.t) (startDate endDate : option Js.Date)
    (msg : Message.t) : bool :=
  (negb (olderThan msg startDate) && negb (newerThan msg endDate)
   && negb (keywordFails params msg) && negb (authorFails params msg)
   && negb (attachmentFails params msg))%bool.

(** The first test of the [while]: [allMessages.length < targetLimit]. *)
Definition belowTarget (params : Params.t) (st : ScanState) : Prop :=
  (Js.ofNat (List.length (allMessages st)) < targetLimit params)%Q.

(** The least whole number that is not below the target: the length at
    which the accumulator stops being below it. *)
Definition wholeTarget (params : Params.t) : Z :=
  Qceiling (targetLimit params).

(** The state one iteration leaves when its batch was processed to the
    end. *)
Definition afterBatch (params : Params.t) (st : ScanState)
    (messages : list Message.t) (acc : list MessageInfo.t) : ScanState :=
  mkState acc
    match lastOf (sort messages) with
    | Some lastMessage => Some (Message.id lastMessage)
    | None => lastMessageId st
    end
    (totalFetched st + List.length messages)
    (S (iterations st))
    (calls st ++ [fetchOptionsOf params st]).

(** The state the [break] on an empty batch leaves. *)
Definition afterEmpty (params : Params.t) (st : ScanState) : ScanState :=
  mkState (allMessages st) (lastMessageId st) (totalFetched st)
    (S (iterations st)) (calls st ++ [fetchOptionsOf params st]).

(** [k] is [l] with some elements left out, the order kept. *)
Inductive Subseq {A : Type} : list A -> list A -> Prop :=
| Subseq_nil : forall l, Subseq [] l
| Subseq_skip : forall x k l, Subseq k l -> Subseq k (x :: l)
| Subseq_keep : forall x k l, Subseq k l -> Subseq (x :: k) (x :: l).

(** The contract of the batch fetch the scan walks backward on: message
    identifiers are non-empty and carry the creation time ([idTime], as a
    snowflake does), and a batch requested [before] a cursor holds no
    message newer than the cursor's. *)
Definition HonoursCursor (idTime : string -> Z) (ch : Channel.t) : Prop :=
  forall n options fetchResult,
    Channel.messages_fetch ch n options = Normal fetchResult ->
    Forall
      (fun m =>
         Message.id m <> EmptyString
         /\ Message.createdTimestamp m = idTime (Message.id m)
         /\ forall c, FetchOptions.before options = Some c ->
                      idTime (Message.id m) <= idTime c)
      (valuesOf fetchResult).

(** What the order argument keeps between iterations: the accumulator is
    in order, and is either empty or bounded below by the cursor. *)
Definition Walked (idTime : string -> Z) (st : ScanState) : Prop :=
  NonIncreasing (allMessages st)
  /\ (allMessages st = []
      \/ exists c, lastMessageId st = Some c /\ c <> EmptyString
                   /\ Forall (fun p => idTime c <= MessageInfo.timestamp p)
                        (allMessages st)).

(** A call of the advanced retrieval tool. *)
Definition advancedRequest (args : Args.t) : Request.t :=
  Request.make "discord_get_messages_advanced" (Some args).

(** [args] with another [limit]. *)
Definition withLimit (limit : option Js.Number) (args : Args.t) : Args.t :=
  Args.make (Args.channel_id args) (Args.message args)
    (Args.image_path args) limit (Args.before args) (Args.after args)
    (Args.start_date args) (Args.end_date args) (Args.keyword args)
    (Args.author args) (Args.has_attachments args).

(** The names the [switch] of the handler has a [case] for. *)
Definition knownTool (name : string) : bool :=
  (String.eqb name "discord_send_message"
   || String.eqb name "discord_send_image"
   || String.eqb name "discord_get_messages"
   || String.eqb name "discord_get_images"
   || String.eqb name "discord_get_messages_advanced")%bool.

(* ------------------------------------------------------------------ *)
(** ** The vocabulary of the further properties *)

(** The options of a fetch issued with the cursor at [cursor]. *)
Definition optionsAt (params : Params.t) (cursor : option string)
  : FetchOptions.t :=
  FetchOptions.make 100%Q (Js.truthy cursor)
    (Js.truthy (Params.after params)).

(** A log of fetches that walked the history backward and may go on: the
    first fetch was issued at [params.before]; each fetch delivered a
    batch of at least 100 messages and left the cursor at the identifier
    of the oldest message of its batch, where the next fetch was issued.
    The second index is the cursor after the last fetch of the log. *)
Inductive Walk (params : Params.t) (textChannel : Channel.t)
  : list FetchOptions.t -> option string -> Prop :=
| Walk_start : Walk params textChannel [] (Params.before params)
| Walk_step : forall issued cursor fetchResult oldest,
    Walk params textChannel issued cursor ->
    Channel.messages_fetch textChannel (List.length issued)
      (optionsAt params cursor) = Normal fetchResult ->
    (100 <= List.length (valuesOf fetchResult))%nat ->
    lastOf (sort (valuesOf fetchResult)) = Some oldest ->
    Walk params textChannel (issued ++ [optionsAt params cursor])
      (Some (Message.id oldest)).

(** The log of a whole scan: empty, or a walk followed by one last fetch
    issued where the walk left the cursor. *)
Definition WalkedLog (params : Params.t) (textChannel : Channel.t)
    (issued : list FetchOptions.t) : Prop :=
  issued = []
  \/ exists earlier cursor,
       issued = earlier ++ [optionsAt params cursor]
       /\ Walk params textChannel earlier cursor.

(** A returned message object is the projection of a message that one of
    the fetches of the log delivered. *)
Definition Delivered (textChannel : Channel.t)
    (issued : list FetchOptions.t) (m : MessageInfo.t) : Prop :=
  exists n options fetchResult msg,
    nth_error issued n = Some options
    /\ Channel.messages_fetch textChannel n options = Normal fetchResult
    /\ In msg (valuesOf fetchResult)
    /\ m = project msg.

(** A date that takes part in the comparisons of the loop: an Invalid Date
    does not. *)
Definition validOnly (d : option Js.Date) : option Js.Date :=
  match d with
  | Some None => None
  | other => other
  end.

(** Two queries put the same tests to every message and aim at the same
    target with the same [after] cursor. *)
Definition SameTests (p : Params.t) (sd ed : option Js.Date)
    (p' : Params.t) (sd' ed' : option Js.Date) : Prop :=
  targetLimit p = targetLimit p'
  /\ Js.truthy (Params.after p) = Js.truthy (Params.after p')
  /\ forall m,
       olderThan m sd = olderThan m sd'
       /\ newerThan m ed = newerThan m ed'
       /\ keywordFails p m = keywordFails p' m
       /\ authorFails p m = authorFails p' m
       /\ attachmentFails p m = attachmentFails p' m.

(** Two states of the scan that differ at most in a falsy cursor. *)
Definition SameState (st st' : ScanState) : Prop :=
  allMessages st = allMessages st'
  /\ Js.truthy (lastMessageId st) = Js.truthy (lastMessageId st')
  /\ totalFetched st = totalFetched st'
  /\ iterations st = iterations st'
  /\ calls st = calls st'.

(** Two scans end the same way, with the same messages and the same log
    of fetches. *)
Definition SameExit (x x' : ScanExit) : Prop :=
  match x, x' with
  | ShortCircuit acc msg issued, ShortCircuit acc' msg' issued' =>
      acc = acc' /\ msg = msg' /\ issued = issued'
  | FetchThrew e issued, FetchThrew e' issued' => e = e' /\ issued = issued'
  | LoopDone st, LoopDone st' => SameState st st'
  | _, _ => False
  end.

(** The query with its falsy strings and flag left out. *)
Definition withoutFalsy (params : Params.t) : Params.t :=
  Params.make
    (Params.channelId params)
    (Params.limit params)
    (Js.truthy (Params.before params))
    (Js.truthy (Params.after params))
    (Js.truthy (Params.startDate params))
    (Js.truthy (Params.endDate params))
    (Js.truthy (Params.keyword params))
    (Js.truthy (Params.author params))
    (if Js.boolOr (Params.hasAttachments params) then Some true else None).

(** The query with another keyword. *)
Definition withKeyword (keyword : option string) (params : Params.t)
  : Params.t :=
  Params.make
    (Params.channelId params) (Params.limit params) (Params.before params)
    (Params.after params) (Params.startDate params) (Params.endDate params)
    keyword (Params.author params) (Params.hasAttachments params).

(** The image objects a response carries, and the lengths it prints. *)
Definition imageDataOf (result : ToolResult.t) : list ImageInfo.t :=
  flat_map (fun j => match j with JImageData l => l | _ => [] end)
    (jsonPieces (textOf result)).

Definition countsOf (result : ToolResult.t) : list nat :=
  flat_map (fun p => match p with Count n => [n] | _ => [] end)
    (textOf result).

(** An attachment whose content type is known and starts with
    ["image/"]. *)
Definition isImage (attachment : Attachment.t) : bool :=
  match Attachment.contentType attachment with
  | Some contentType => Js.startsWith contentType "image/"
  | None => false
  end.

(** A call of one of the two plain retrieval tools. *)
Definition plainRequest (name : string) (args : Args.t) : Request.t :=
  Request.make name (Some args).

(** The tools the [ListToolsRequestSchema] handler advertises: the name,
    the declared properties (name, type, bounds) and the required ones. *)
Module Tool.
Record property : Type := make_property {
  key : string;
  type : string;
  minimum : option Z;
  maximum : option Z
}.
Record t : Type := make {
  name : string;
  description : string;
  properties : list property;
  required : list string
}.
End Tool.

Definition stringProperty (key : string) : Tool.property :=
  Tool.make_property key "string" None None.

Definition limitProperty : Tool.property :=
  Tool.make_property "limit" "number" (Some 1) (Some 100).

Definition listTools : list Tool.t :=
  [ Tool.make "discord_send_message"
      "Send a text message to a Discord channel"
      [ stringProperty "channel_id"; stringProperty "message" ]
      [ "channel_id"; "message" ];
    Tool.make "discord_send_image"
      "Send an image to a Discord channel"
      [ stringProperty "channel_id"; stringProperty "image_path";
        stringProperty "message" ]
      [ "channel_id"; "image_path" ];
    Tool.make "discord_get_messages"
      "Retrieve messages from a Discord channel"
      [ stringProperty "channel_id"; limitProperty ]
      [ "channel_id" ];
    Tool.make "discord_get_images"
      "Retrieve images from a Discord channel"
      [ stringProperty "channel_id"; limitProperty ]
      [ "channel_id" ];
    Tool.make "discord_get_messages_advanced"
      "Advanced message retrieval with date range, keyword search, and pagination"
      [ stringProperty "channel_id"; limitProperty;
        stringProperty "before"; stringProperty "after";
        stringProperty "start_date"; stringProperty "end_date";
        stringProperty "keyword"; stringProperty "author";
        Tool.make_property "has_attachments" "boolean" None None ]
      [ "channel_id" ] ].

(** The client once [login] has completed. *)
Definition loggedIn (client : Client.t) : Client.t :=
  Client.make true (Client.token client) (Client.login client)
    (Client.channels_fetch client).

(* ------------------------------------------------------------------ *)
(** ** A sample deployment, for the concrete instances below *)

Module Sample.

(** The two dates of the tool's schema description; any other string
    is an Invalid Date here. *)
Definition parseDate (s : string) : Js.Date :=
  if String.eqb s "2024-01-01T00:00:00Z" then Some 1704067200000
  else if String.eqb s "2024-12-31T23:59:59Z" then Some 1735689599000
  else None.

Definition idOf (n : nat) : string :=
  NilEmpty.string_of_uint (Nat.to_uint n).

Definition serial (id : string) : Z :=
  match NilEmpty.uint_of_string id with
  | Some u => Z.of_uint u
  | None => 0
  end.

(** Message [n] is sent [n] seconds after 2023-12-31T23:59:50Z. *)
Definition idTime (id : string) : Z := 1704067190000 + 1000 * serial id.

Definition picture : Attachment.t :=
  Attachment.make "cat.png" "https://cdn.example/cat.png" 2048
    (Some "image/png").

(** Even messages are alice's and carry a picture; every third one
    reports an error. *)
Definition message (n : nat) : Message.t :=
  Message.make
    (idOf n)
    (if Nat.even n then User.make "alice" "7001"
     else User.make "bob" "alice")
    (if (n mod 3 =? 0)%nat then "Build ERROR in stage two"
     else "all good")
    (idTime (idOf n))
    (if Nat.even n then [picture] else [])
    0 (n mod 2).

(** Messages [n], [n-1], ..., [1]: newest first. *)
Definition history (n : nat) : list Message.t :=
  map message (rev (seq 1 n)).

Definition inWindow (options : FetchOptions.t) (m : Message.t) : bool :=
  (match FetchOptions.before options with
   | Some c => serial (Message.id m) <? serial c
   | None => true
   end
   &&
   match FetchOptions.after options with
   | Some c => serial c <? serial (Message.id m)
   | None => true
   end)%bool.

(** A channel that serves a fixed history, newest first: as many
    messages of the window as the whole part of the limit. *)
Definition channel (messages : list Message.t) : Channel.t :=
  Channel.make true
    (fun _ options =>
       Normal
         (Collection
            (firstn (Z.to_nat (Qfloor (FetchOptions.limit options)))
               (filter (inWindow options) messages))))
    (fun _ => Normal "9000").

(** On this channel [after] takes precedence: a fetch that names both
    cursors is served as if it named [after] alone. *)
Definition inWindowAfterFirst (options : FetchOptions.t) (m : Message.t)
  : bool :=
  match FetchOptions.after options, FetchOptions.before options with
  | Some c, _ => serial c <? serial (Message.id m)
  | None, Some c => serial (Message.id m) <? serial c
  | None, None => true
  end.

Definition afterFirstChannel (messages : list Message.t) : Channel.t :=
  Channel.make true
    (fun _ options =>
       Normal
         (Collection
            (firstn (Z.to_nat (Qfloor (FetchOptions.limit options)))
               (filter (inWindowAfterFirst options) messages))))
    (fun _ => Normal "9000").

(** A channel that serves its first fetch and rejects the later ones. *)
Definition flakyChannel (messages : list Message.t) : Channel.t :=
  Channel.make true
    (fun n options =>
       match n with
       | O => Channel.messages_fetch (channel messages) n options
       | S _ => Throw (Js.JsError "DiscordAPIError" "Service Unavailable")
       end)
    (fun _ => Normal "9000").

(** A logged-in client with one channel. *)
Definition client (ch : Channel.t) : Client.t :=
  Client.make true (Some "token") (fun _ => Normal tt)
    (fun _ => Normal (Some ch)).

Definition noArgs : Args.t :=
  Args.make (Some "42") None None None None None None None None None None.

(** The identifier is non-empty and carries the creation time. *)
Definition wellStamped (m : Message.t) : bool :=
  (negb (String.eqb (Message.id m) EmptyString)
   && (Message.createdTimestamp m =? idTime (Message.id m)))%bool.

(** A hundred and fifty messages behind a channel that fails on the
    second fetch. *)
Definition flakyClient : Client.t := client (flakyChannel (history 150)).

(** Twenty-four messages, the oldest nine of them from before 2024. *)
Definition smallClient : Client.t := client (channel (history 24)).

(** A hundred and fifty messages: two batches. *)
Definition largeClient : Client.t := client (channel (history 150)).

(** Eleven hundred messages: more batches than the budget allows. *)
Definition deepClient : Client.t := client (channel (history 1100)).

(** Every filter at once. *)
Definition allFilters : Args.t :=
  Args.make (Some "42") None None (Some 5%Q) None None
    (Some "2024-01-01T00:00:00Z") (Some "2024-12-31T23:59:59Z")
    (Some "error") (Some "alice") (Some true).

(** A limit above the range the schema declares. *)
Definition limit101 : Args.t := withLimit (Some 101%Q) noArgs.

(** A limit of one and a half: a ['number'] between the declared minimum
    and maximum. *)
Definition limitOneAndHalf : Args.t := withLimit (Some (3 # 2)%Q) noArgs.

(** The messages after the first that report an error, on a channel of
    150 messages where [after] takes precedence. *)
Definition errorsAfterFirst : Args.t :=
  Args.make (Some "42") None None None None (Some "1")
    None None (Some "error") None None.

Definition afterFirstClient : Client.t :=
  client (afterFirstChannel (history 150)).

(** Only a start date, reached inside the first batch. *)
Definition since2024 : Args.t :=
  Args.make (Some "42") None None None None None
    (Some "2024-01-01T00:00:00Z") None None None None.

(** A start date later than every message of the history. *)
Definition sinceEndOf2024 : Args.t :=
  Args.make (Some "42") None None None None None
    (Some "2024-12-31T23:59:59Z") None None None None.


(** A start date the runtime does not parse. *)
Definition sinceYesterday : Args.t :=
  Args.make (Some "42") None None None None None
    (Some "yesterday") None None None None.

(** An end date the runtime does not parse. *)
Definition untilTomorrow : Args.t :=
  Args.make (Some "42") None None None None None
    None (Some "tomorrow") None None None.

(** A keyword no message contains. *)
Definition keywordAbsent : Args.t :=
  Args.make (Some "42") None None None None None
    None None (Some "zebra") None None.


(** Only the keyword, with a limit of two. *)
Definition twoErrors : Args.t :=
  Args.make (Some "42") None None (Some 2%Q) None None
    None None (Some "Error") None None.

(** The keyword in capitals, and empty strings where [noArgs] has none. *)
Definition shouting : Args.t :=
  Args.make (Some "42") None None None None None
    None None (Some "ERROR") None None.

Definition emptyStrings : Args.t :=
  Args.make (Some "42") None None None (Some "") (Some "")
    (Some "") (Some "") (Some "") (Some "") (Some false).

(** A channel that can be read but refuses every [send]. *)
Definition readOnlyChannel : Channel.t :=
  Channel.make true
    (Channel.messages_fetch (channel (history 24)))
    (fun _ => Throw (Js.JsError "DiscordAPIError" "Missing Permissions")).

Definition readOnlyClient : Client.t := client readOnlyChannel.

(** A picture with a caption, and a bare text. *)
Definition postcard : Args.t :=
  Args.make (Some "42") (Some "greetings") (Some "/tmp/card.png")
    None None None None None None None None.

(** A client that still has to log in, with a token the platform
    accepts, and one with a token it rejects. *)
Definition freshClient : Client.t :=
  Client.make false (Some "token") (fun _ => Normal tt)
    (fun _ => Normal (Some (channel (history 24)))).

Definition rejectedClient : Client.t :=
  Client.make false (Some "expired")
    (fun _ => Throw (Js.JsError "Error" "An invalid token was provided."))
    (fun _ => Normal (Some (channel (history 24)))).

End Sample.

(* ------------------------------------------------------------------ *)
(** ** Completions *)

Lemma bind_Normal {A B : Type} (a : A) (k : A -> Completion B) :
  bind (Normal a) k = k a.
Proof. reflexivity. Qed.

Lemma bind_Throw {A B : Type} (e : Js.Exn) (k : A -> Completion B) :
  bind (Throw e) k = Throw e.
Proof. reflexivity. Qed.

(* ------------------------------------------------------------------ *)
(** ** Strings *)

Lemma startsWith_iff (s t : string) :
  Js.startsWith s t = true <-> exists b, s = (t ++ b)%string.
Proof.
  revert s; induction t as [|c t IH]; intros s; simpl.
  - split; [intros _; now exists s | reflexivity].
  - destruct s as [|a s]; simpl.
    + split; [discriminate | intros [b Hb]; discriminate].
    + rewrite andb_true_iff, Ascii.eqb_eq, IH. split.
      * intros [-> [b ->]]. now exists b.
      * intros [b Hb]. injection Hb as -> ->. split; [reflexivity | now exists b].
Qed.

Lemma includes_iff (s t : string) :
  Js.includes s t = true <-> Occurs t s.
Proof.
  unfold Occurs. induction s as [|c s IH].
  - simpl. rewrite orb_false_r, startsWith_iff. split.
    + intros [b Hb]. now exists EmptyString, b.
    + intros [a [b Hab]]. destruct a; [now exists b | discriminate].
  - cbn [Js.includes]. rewrite orb_true_iff, startsWith_iff, IH. split.
    + intros [[b Hb] | [a [b Hab]]].
      * now exists EmptyString, b.
      * exists (String c a), b. simpl. now rewrite Hab.
    + intros [a [b Hab]]. destruct a as [|c' a]; simpl in Hab.
      * left. now exists b.
      * right. injection Hab as _ Hs. now exists a, b.
Qed.

Lemma truthy_Some (x : option string) (s : string) :
  Js.truthy x = Some s -> x = Some s /\ s <> EmptyString.
Proof.
  destruct x as [[|c r]|]; simpl; intros H; try discriminate.
  injection H as <-. split; [reflexivity | discriminate].
Qed.

(* ------------------------------------------------------------------ *)
(** ** The sort *)

Lemma insert_perm (m : Message.t) (l : list Message.t) :
  Permutation (m :: l) (insert m l).
Proof.
  induction l as [|x rest IH]; simpl.
  - apply Permutation_refl.
  - destruct (Message.createdTimestamp x <=? Message.createdTimestamp m).
    + apply Permutation_refl.
    + eapply perm_trans; [apply perm_swap | now apply perm_skip].
Qed.

Lemma sort_perm (l : list Message.t) : Permutation l (sort l).
Proof.
  induction l as [|m rest IH]; simpl.
  - apply perm_nil.
  - eapply perm_trans; [apply perm_skip, IH | apply insert_perm].
Qed.

Lemma insert_descending (m : Message.t) (l : list Message.t) :
  Descending l -> Descending (insert m l).
Proof.
  unfold Descending. induction l as [|x rest IH]; intros Hl; simpl.
  - constructor; [constructor | constructor].
  - inversion Hl as [|? ? Hrest Hx]; subst.
    destruct (Message.createdTimestamp x <=? Message.createdTimestamp m) eqn:E.
    + apply Z.leb_le in E. constructor; [assumption |].
      constructor; [assumption |].
      eapply Forall_impl; [| exact Hx]. simpl. intros; lia.
    + apply Z.leb_gt in E. constructor; [now apply IH |].
      eapply Permutation_Forall; [apply insert_perm |].
      constructor; [lia | assumption].
Qed.

Lemma sort_descending (l : list Message.t) : Descending (sort l).
Proof.
  induction l as [|m rest IH]; simpl.
  - constructor.
  - now apply insert_descending.
Qed.

Lemma sort_Forall (P : Message.t -> Prop) (l : list Message.t) :
  Forall P l -> Forall P (sort l).
Proof. intros H. eapply Permutation_Forall; [apply sort_perm | exact H]. Qed.

Lemma sort_In (m : Message.t) (l : list Message.t) :
  In m (sort l) -> In m l.
Proof.
  intros H. eapply Permutation_in; [apply Permutation_sym, sort_perm | exact H].
Qed.

Lemma sort_length (l : list Message.t) :
  List.length (sort l) = List.length l.
Proof. symmetry. apply Permutation_length, sort_perm. Qed.

(** The last element of a sorted batch is its oldest. *)
Lemma lastOf_oldest (l : list Message.t) (z : Message.t) :
  Descending l -> lastOf l = Some z ->
  In z l /\
  Forall (fun m => Message.createdTimestamp z <= Message.createdTimestamp m) l.
Proof.
  unfold Descending. induction l as [|x rest IH]; intros Hl Hz.
  - discriminate.
  - inversion Hl as [|? ? Hrest Hx]; subst.
    destruct rest as [|y rest'].
    + injection Hz as <-. split; [now left |].
      constructor; [lia | constructor].
    + change (lastOf (y :: rest') = Some z) in Hz.
      destruct (IH Hrest Hz) as [Hin Hall]. split; [now right |].
      constructor; [| exact Hall].
      rewrite Forall_forall in Hx. now apply Hx.
Qed.

Lemma lastOf_nonempty (l : list Message.t) :
  l <> [] -> exists z, lastOf l = Some z.
Proof.
  induction l as [|x rest IH]; intros H; [contradiction |].
  destruct rest as [|y rest'].
  - now exists x.
  - destruct IH as [z Hz]; [discriminate |]. now exists z.
Qed.

(* ------------------------------------------------------------------ *)
(** ** Subsequences *)

Lemma Subseq_Forall {A : Type} (P : A -> Prop) (k l : list A) :
  Subseq k l -> Forall P l -> Forall P k.
Proof.
  induction 1 as [l | x k l _ IH | x k l _ IH]; intros Hl.
  - constructor.
  - inversion Hl; subst. now apply IH.
  - inversion Hl; subst. constructor; [assumption | now apply IH].
Qed.

Lemma Subseq_sorted {A : Type} (R : A -> A -> Prop) (k l : list A) :
  Subseq k l -> StronglySorted R l -> StronglySorted R k.
Proof.
  induction 1 as [l | x k l _ IH | x k l Hkl IH]; intros Hl.
  - constructor.
  - inversion Hl; subst. now apply IH.
  - inversion Hl; subst. constructor; [now apply IH |].
    now apply (Subseq_Forall _ _ _ Hkl).
Qed.

Lemma Subseq_In {A : Type} (k l : list A) (x : A) :
  Subseq k l -> In x k -> In x l.
Proof.
  intros Hkl Hx.
  assert (H : Forall (fun y => In y l) k).
  { apply (Subseq_Forall _ _ _ Hkl). now apply Forall_forall. }
  rewrite Forall_forall in H. now apply H.
Qed.

(* ------------------------------------------------------------------ *)
(** ** Numbers *)

Lemma lt_iff (x y : Js.Number) : Js.lt x y = true <-> (x < y)%Q.
Proof.
  unfold Js.lt. rewrite Qlt_alt.
  destruct (x ?= y)%Q; split; congruence.
Qed.

Lemma ge_lt (x y : Js.Number) : Js.ge x y = negb (Js.lt x y).
Proof. unfold Js.ge, Js.lt. now destruct (x ?= y)%Q. Qed.

(** A length is below a number exactly when it is below the number
    rounded up. *)
Lemma ofNat_lt_iff (n : nat) (q : Js.Number) :
  (Js.ofNat n < q)%Q <-> Z.of_nat n < Qceiling q.
Proof.
  unfold Js.ofNat. split; intros H.
  - rewrite Zlt_Qlt. eapply Qlt_le_trans; [exact H | apply Qle_ceiling].
  - assert (H' : Z.of_nat n <= Qceiling q - 1) by lia.
    rewrite Zle_Qle in H'.
    eapply Qle_lt_trans; [exact H' | apply Qceiling_lt].
Qed.

Lemma ge_true_iff (n : nat) (q : Js.Number) :
  Js.ge (Js.ofNat n) q = true <-> Qceiling q <= Z.of_nat n.
Proof.
  rewrite ge_lt, negb_true_iff, <- not_true_iff_false, lt_iff, ofNat_lt_iff.
  lia.
Qed.

Lemma ge_false_iff (n : nat) (q : Js.Number) :
  Js.ge (Js.ofNat n) q = false <-> Z.of_nat n < Qceiling q.
Proof. now rewrite ge_lt, negb_false_iff, lt_iff, ofNat_lt_iff. Qed.

Lemma belowTarget_iff (params : Params.t) (st : ScanState) :
  belowTarget params st
  <-> Z.of_nat (List.length (allMessages st)) < wholeTarget params.
Proof. apply ofNat_lt_iff. Qed.

Lemma belowTarget_dec (params : Params.t) (st : ScanState) :
  {belowTarget params st} + {~ belowTarget params st}.
Proof.
  unfold belowTarget.
  destruct (Qlt_le_dec (Js.ofNat (List.length (allMessages st)))
              (targetLimit params)) as [H | H].
  - now left.
  - right. now apply Qle_not_lt.
Qed.

(** The target of a query: the supplied limit unless it is falsy. *)
Lemma targetLimit_cases (params : Params.t) :
  match Params.limit params with
  | Some v =>
      (v == 0 /\ targetLimit params = 50%Q)%Q
      \/ (~ v == 0 /\ targetLimit params = v)%Q
  | None => targetLimit params = 50%Q
  end.
Proof.
  unfold targetLimit, Js.numOr.
  destruct (Params.limit params) as [v|]; [| reflexivity].
  destruct (Qeq_bool v 0) eqn:E.
  - left. split; [now apply Qeq_bool_iff | reflexivity].
  - right. split; [| reflexivity].
    intros H. apply Qeq_bool_iff in H. congruence.
Qed.

(* ------------------------------------------------------------------ *)
(** ** The loop over one batch *)

Section ForLoop.

Variable params : Params.t.
Variables startDate endDate : option Js.Date.

Abbreviation for_loop' := (for_loop params startDate endDate).
Abbreviation passes' := (passes params startDate endDate).

(** The loop pushes, in order, messages of the batch that pass every
    test, and nothing else. *)
Lemma for_loop_kept (l : list Message.t) :
  forall acc, exists kept,
    accOf (for_loop' acc l) = acc ++ map project kept
    /\ Subseq kept l
    /\ Forall (fun m => passes' m = true) kept.
Proof.
  induction l as [|msg rest IH]; intros acc.
  - exists []. simpl. rewrite app_nil_r.
    split; [reflexivity | split; constructor].
  - cbn [for_loop].
    destruct (olderThan msg startDate) eqn:E1.
    { exists []. simpl. rewrite app_nil_r.
      split; [reflexivity | split; constructor]. }
    destruct (newerThan msg endDate) eqn:E2;
      [destruct (IH acc) as [k [H1 [H2 H3]]]; exists k;
       split; [assumption | split; [now apply Subseq_skip | assumption]] |].
    destruct (keywordFails params msg) eqn:E3;
      [destruct (IH acc) as [k [H1 [H2 H3]]]; exists k;
       split; [assumption | split; [now apply Subseq_skip | assumption]] |].
    destruct (authorFails params msg) eqn:E4;
      [destruct (IH acc) as [k [H1 [H2 H3]]]; exists k;
       split; [assumption | split; [now apply Subseq_skip | assumption]] |].
    destruct (attachmentFails params msg) eqn:E5;
      [destruct (IH acc) as [k [H1 [H2 H3]]]; exists k;
       split; [assumption | split; [now apply Subseq_skip | assumption]] |].
    assert (Hp : passes' msg = true)
      by (unfold passes; now rewrite E1, E2, E3, E4, E5).
    destruct (Js.ge (Js.ofNat (List.length (acc ++ [project msg])))
                (targetLimit params)).
    + exists [msg]. simpl. split; [reflexivity | split].
      * apply Subseq_keep, Subseq_nil.
      * constructor; [exact Hp | constructor].
    + destruct (IH (acc ++ [project msg])) as [k [H1 [H2 H3]]].
      exists (msg :: k). split; [| split].
      * rewrite H1, <- app_assoc. reflexivity.
      * now apply Subseq_keep.
      * constructor; assumption.
Qed.

(** Entered below the target, the loop never goes beyond the target
    rounded up. *)
Lemma for_loop_length (l : list Message.t) :
  forall acc,
    Z.of_nat (List.length acc) < wholeTarget params ->
    Z.of_nat (List.length (accOf (for_loop' acc l))) <= wholeTarget params.
Proof.
  induction l as [|msg rest IH]; intros acc Hacc.
  - simpl. lia.
  - cbn [for_loop].
    destruct (olderThan msg startDate); [simpl; lia |].
    destruct (newerThan msg endDate); [now apply IH |].
    destruct (keywordFails params msg); [now apply IH |].
    destruct (authorFails params msg); [now apply IH |].
    destruct (attachmentFails params msg); [now apply IH |].
    destruct (Js.ge (Js.ofNat (List.length (acc ++ [project msg])))
                (targetLimit params)) eqn:E.
    + simpl. rewrite length_app in *. simpl in *. lia.
    + apply ge_false_iff in E. now apply IH.
Qed.

(** The [return] is taken on a message of the batch that predates the
    start date, and on nothing else. *)
Lemma for_loop_returned (l : list Message.t) :
  forall acc acc' msg,
    for_loop' acc l = Returned acc' msg ->
    In msg l /\ olderThan msg startDate = true.
Proof.
  induction l as [|m rest IH]; intros acc acc' msg H.
  - discriminate.
  - cbn [for_loop] in H.
    destruct (olderThan m startDate) eqn:E1.
    { injection H as _ <-. split; [now left | exact E1]. }
    assert (Hrec : forall a, for_loop' a rest = Returned acc' msg ->
                             In msg (m :: rest) /\ olderThan msg startDate = true).
    { intros a Ha. destruct (IH _ _ _ Ha). split; [now right | assumption]. }
    destruct (newerThan m endDate); [now apply (Hrec acc) |].
    destruct (keywordFails params m); [now apply (Hrec acc) |].
    destruct (authorFails params m); [now apply (Hrec acc) |].
    destruct (attachmentFails params m); [now apply (Hrec acc) |].
    destruct (Js.ge (Js.ofNat (List.length (acc ++ [project m])))
                (targetLimit params));
      [discriminate | now apply (Hrec (acc ++ [project m]))].
Qed.

End ForLoop.

(* ------------------------------------------------------------------ *)
(** ** The loop over the batches *)

Section WhileLoop.

Variable params : Params.t.
Variables startDate endDate : option Js.Date.
Variable textChannel : Channel.t.

Abbreviation for_loop' := (for_loop params startDate endDate).
Abbreviation while_loop' := (while_loop params startDate endDate textChannel).
Abbreviation nextOptions := (fetchOptionsOf params).
Abbreviation belowTarget' := (belowTarget params).
Abbreviation afterBatch' := (afterBatch params).
Abbreviation afterEmpty' := (afterEmpty params).

(** One unfolding of the loop, by cases of what the iteration meets. *)
Lemma while_loop_step (budget : nat) (st : ScanState) :
  belowTarget' st ->
  while_loop' (S budget) st =
  match Channel.messages_fetch textChannel (List.length (calls st))
          (nextOptions st) with
  | Throw e => FetchThrew e (calls st ++ [nextOptions st])
  | Normal fetchResult =>
      let messages := valuesOf fetchResult in
      match messages with
      | [] => LoopDone (afterEmpty' st)
      | _ :: _ =>
          match for_loop' (allMessages st) (sort messages) with
          | Returned acc msg =>
              ShortCircuit acc msg (calls st ++ [nextOptions st])
          | Completed acc =>
              if (List.length messages <? 100)%nat
              then LoopDone (afterBatch' st messages acc)
              else while_loop' budget (afterBatch' st messages acc)
          end
      end
  end.
Proof.
  unfold belowTarget. intros Hlt. apply lt_iff in Hlt.
  cbn [while_loop]. rewrite Hlt.
  destruct (Channel.messages_fetch textChannel (List.length (calls st))
              (nextOptions st)) as [fetchResult | e]; [| reflexivity].
  cbv zeta. destruct (valuesOf fetchResult) as [|m rest] eqn:Ev; reflexivity.
Qed.

Lemma while_loop_stop (budget : nat) (st : ScanState) :
  ~ belowTarget' st -> while_loop' budget st = LoopDone st.
Proof.
  unfold belowTarget. intros Hge.
  assert (E : Js.lt (Js.ofNat (List.length (allMessages st)))
                (targetLimit params) = false)
    by (apply not_true_iff_false; now rewrite lt_iff).
  destruct budget; cbn [while_loop]; now rewrite E.
Qed.

Lemma while_loop_spent (st : ScanState) : while_loop' 0 st = LoopDone st.
Proof. cbn [while_loop]. now destruct (Js.lt _ _). Qed.

(** An invariant of the state between iterations yields a property of
    every way the loop ends. *)
Lemma while_loop_rule (Inv : ScanState -> Prop) (Post : ScanExit -> Prop) :
  (forall st, Inv st -> Post (LoopDone st)) ->
  (forall st e, Inv st -> belowTarget' st ->
     Channel.messages_fetch textChannel (List.length (calls st))
       (nextOptions st) = Throw e ->
     Post (FetchThrew e (calls st ++ [nextOptions st]))) ->
  (forall st fetchResult, Inv st -> belowTarget' st ->
     Channel.messages_fetch textChannel (List.length (calls st))
       (nextOptions st) = Normal fetchResult ->
     valuesOf fetchResult = [] -> Inv (afterEmpty' st)) ->
  (forall st fetchResult, Inv st -> belowTarget' st ->
     Channel.messages_fetch textChannel (List.length (calls st))
       (nextOptions st) = Normal fetchResult ->
     valuesOf fetchResult <> [] ->
     match for_loop' (allMessages st) (sort (valuesOf fetchResult)) with
     | Returned acc msg =>
         Post (ShortCircuit acc msg (calls st ++ [nextOptions st]))
     | Completed acc => Inv (afterBatch' st (valuesOf fetchResult) acc)
     end) ->
  forall budget st, Inv st -> Post (while_loop' budget st).
Proof.
  intros Hdone Hthrow Hempty Hbatch.
  induction budget as [|budget IH]; intros st Hinv.
  - rewrite while_loop_spent. now apply Hdone.
  - destruct (belowTarget_dec params st) as [Hlt | Hge].
    + rewrite (while_loop_step budget st Hlt).
      destruct (Channel.messages_fetch textChannel (List.length (calls st))
                  (nextOptions st)) as [fetchResult | e] eqn:Ef.
      * cbv zeta.
        destruct (valuesOf fetchResult) as [|m rest] eqn:Ev.
        -- apply Hdone. now apply (Hempty st fetchResult).
        -- assert (Hne : valuesOf fetchResult <> []) by (rewrite Ev; discriminate).
           specialize (Hbatch st fetchResult Hinv Hlt Ef Hne).
           rewrite Ev in Hbatch.
           destruct (for_loop' (allMessages st) (sort (m :: rest)))
             as [acc msg | acc]; [exact Hbatch |].
           destruct (List.length (m :: rest) <? 100)%nat.
           ++ now apply Hdone.
           ++ now apply IH.
      * now apply Hthrow.
    + rewrite (while_loop_stop (S budget) st Hge). now apply Hdone.
Qed.

End WhileLoop.

(* ------------------------------------------------------------------ *)
(** ** The shape of a successful advanced retrieval *)

(** A normal completion of [getMessagesAdvanced] comes from one of its two
    [return] statements. *)
Lemma getMessagesAdvanced_Normal
    (parseDate : string -> Js.Date) (client : Client.t) (params : Params.t)
    (result : ToolResult.t) :
  getMessagesAdvanced parseDate client params = Normal result ->
  exists textChannel,
    ensureDiscordReady client = Normal tt
    /\ fetchTextChannel client (Params.channelId params) = Normal textChannel
    /\ let exit :=
         scan params (dateOf parseDate (Params.startDate params))
           (dateOf parseDate (Params.endDate params)) textChannel in
       (exists acc msg issued,
           exit = ShortCircuit acc msg issued
           /\ result = textResult (shortCircuitText acc))
       \/ (exists st summary,
              exit = LoopDone st
              /\ summaryOf params (dateOf parseDate (Params.startDate params))
                   (dateOf parseDate (Params.endDate params)) st
                 = Normal summary
              /\ result = textResult (advancedText summary (allMessages st))).
Proof.
  unfold getMessagesAdvanced. intros H.
  destruct (ensureDiscordReady client) as [[] | e]; [| discriminate].
  rewrite bind_Normal in H.
  destruct (fetchTextChannel client (Params.channelId params))
    as [textChannel | e]; [| discriminate].
  rewrite bind_Normal in H. exists textChannel.
  split; [reflexivity | split; [reflexivity |]]. cbv zeta.
  revert H.
  generalize (scan params (dateOf parseDate (Params.startDate params))
                (dateOf parseDate (Params.endDate params)) textChannel).
  intros [acc msg issued | e issued | st] H.
  - left. exists acc, msg, issued. split; [reflexivity |].
    now injection H as <-.
  - discriminate.
  - right.
    destruct (summaryOf params (dateOf parseDate (Params.startDate params))
                (dateOf parseDate (Params.endDate params)) st)
      as [summary | e] eqn:Es; [| discriminate].
    exists st, summary. rewrite bind_Normal in H.
    split; [reflexivity | split; [exact Es |]].
    now injection H as <-.
Qed.

Lemma messagesOf_shortCircuit (acc : list MessageInfo.t) :
  messagesOf (textResult (shortCircuitText acc)) = acc.
Proof. unfold messagesOf. simpl. now rewrite app_nil_r. Qed.

Lemma messagesOf_advanced (summary : Summary.t) (acc : list MessageInfo.t) :
  messagesOf (textResult (advancedText summary acc)) = acc.
Proof. unfold messagesOf. simpl. now rewrite app_nil_r. Qed.

(** What holds of the accumulator on both exits of the scan holds of the
    messages of a successful response. *)
Lemma advanced_messages_from_scan
    (parseDate : string -> Js.Date) (client : Client.t) (params : Params.t)
    (result : ToolResult.t) (P : list MessageInfo.t -> Prop) :
  (forall textChannel,
      match scan params (dateOf parseDate (Params.startDate params))
              (dateOf parseDate (Params.endDate params)) textChannel with
      | ShortCircuit acc _ _ => P acc
      | FetchThrew _ _ => True
      | LoopDone st => P (allMessages st)
      end) ->
  getMessagesAdvanced parseDate client params = Normal result ->
  P (messagesOf result).
Proof.
  intros Hscan H.
  destruct (getMessagesAdvanced_Normal _ _ _ _ H) as [ch [_ [_ Hexit]]].
  specialize (Hscan ch). cbv zeta in Hexit.
  destruct Hexit as [[acc [msg [issued [E ->]]]] | [st [summary [E [_ ->]]]]];
    rewrite E in Hscan.
  - now rewrite messagesOf_shortCircuit.
  - now rewrite messagesOf_advanced.
Qed.

(* ------------------------------------------------------------------ *)
(** ** What the scan accumulates *)

(** A property of every message that passes the tests holds of everything
    the scan returns. *)
Lemma scan_Forall (params : Params.t) (startDate endDate : option Js.Date)
    (Q : MessageInfo.t -> Prop) :
  (forall msg, passes params startDate endDate msg = true -> Q (project msg)) ->
  forall textChannel,
    match scan params startDate endDate textChannel with
    | ShortCircuit acc _ _ => Forall Q acc
    | FetchThrew _ _ => True
    | LoopDone st => Forall Q (allMessages st)
    end.
Proof.
  intros HQ textChannel. unfold scan.
  apply (while_loop_rule params startDate endDate textChannel
           (fun st => Forall Q (allMessages st))
           (fun x => match x with
                     | ShortCircuit acc _ _ => Forall Q acc
                     | FetchThrew _ _ => True
                     | LoopDone st => Forall Q (allMessages st)
                     end)).
  - auto.
  - auto.
  - intros st r Hinv _ _ _. exact Hinv.
  - intros st r Hinv _ _ _.
    destruct (for_loop_kept params startDate endDate (sort (valuesOf r))
                (allMessages st)) as [kept [Hacc [_ Hpass]]].
    assert (Hall : Forall Q (allMessages st ++ map project kept)).
    { apply Forall_app. split; [exact Hinv |].
      apply Forall_map. eapply Forall_impl; [| exact Hpass]. exact HQ. }
    destruct (for_loop params startDate endDate (allMessages st)
                (sort (valuesOf r))) as [acc msg | acc];
      simpl in Hacc; subst acc; exact Hall.
  - constructor.
Qed.

Lemma passes_Satisfies (parseDate : string -> Js.Date) (params : Params.t)
    (msg : Message.t) :
  passes params (dateOf parseDate (Params.startDate params))
    (dateOf parseDate (Params.endDate params)) msg = true ->
  Satisfies parseDate params (project msg).
Proof.
  unfold passes. rewrite !andb_true_iff, !negb_true_iff.
  intros [[[[Hold Hnew] Hkw] Hau] Hatt].
  constructor; simpl.
  - intros kw Hk. unfold keywordFails in Hkw. rewrite Hk in Hkw.
    destruct kw as [|c kw]; simpl in Hkw.
    + exists EmptyString, (Js.toLowerCase (Message.content msg)). reflexivity.
    + apply negb_false_iff in Hkw. now apply includes_iff in Hkw.
  - intros a Ha. unfold authorFails in Hau. rewrite Ha in Hau.
    apply negb_false_iff, orb_true_iff in Hau.
    destruct Hau as [H | H]; apply String.eqb_eq in H; auto.
  - intros Hflag. unfold attachmentFails in Hatt. rewrite Hflag in Hatt.
    simpl in Hatt. destruct (Message.attachments msg); [discriminate |].
    discriminate.
  - intros s t Hs Ht. unfold dateOf in Hold. rewrite Hs in Hold.
    simpl in Hold. rewrite Ht in Hold. simpl in Hold.
    apply Z.ltb_ge in Hold. exact Hold.
  - intros s t Hs Ht. unfold dateOf in Hnew. rewrite Hs in Hnew.
    simpl in Hnew. rewrite Ht in Hnew. simpl in Hnew.
    apply Z.ltb_ge in Hnew. exact Hnew.
Qed.


(** C1.  Every message object in a successful response of
    [discord_get_messages_advanced] satisfies every filter of the query:
    its content contains the keyword as a case-insensitive substring, its
    author name or author id equals the (truthy) author string, it has an
    attachment when [hasAttachments] is true, and its timestamp lies in the
    inclusive window of the start and end dates that parse. *)
Theorem advanced_results_satisfy_filters
    (parseDate : string -> Js.Date) (client : Client.t) (params : Params.t)
    (result : ToolResult.t) :
  getMessagesAdvanced parseDate client params = Normal result ->
  Forall (Satisfies parseDate params) (messagesOf result).
Proof.
  apply (advanced_messages_from_scan parseDate client params result
           (Forall (Satisfies parseDate params))).
  intros textChannel. apply scan_Forall.
  intros msg Hpasses. now apply passes_Satisfies.
Qed.

Lemma advanced_results_satisfy_filters_witness :
  getMessagesAdvanced Sample.parseDate Sample.smallClient
    (advancedParams Sample.allFilters)
  = Normal (callToolHandler Sample.parseDate Sample.smallClient
              (advancedRequest Sample.allFilters))
  /\ Forall (Satisfies Sample.parseDate (advancedParams Sample.allFilters))
       (messagesOf (callToolHandler Sample.parseDate Sample.smallClient
                      (advancedRequest Sample.allFilters))).
Proof.
  split.
  - vm_compute. reflexivity.
  - apply (advanced_results_satisfy_filters Sample.parseDate
             Sample.smallClient).
    vm_compute. reflexivity.
Defined.

(* ------------------------------------------------------------------ *)
(** ** The length of the result *)

Lemma scan_length (params : Params.t) (startDate endDate : option Js.Date)
    (textChannel : Channel.t) :
  let bounded acc :=
    Z.of_nat (List.length acc) <= Z.max 0 (wholeTarget params) in
  match scan params startDate endDate textChannel with
  | ShortCircuit acc _ _ => bounded acc
  | FetchThrew _ _ => True
  | LoopDone st => bounded (allMessages st)
  end.
Proof.
  intros bounded. unfold scan.
  apply (while_loop_rule params startDate endDate textChannel
           (fun st => bounded (allMessages st))
           (fun x => match x with
                     | ShortCircuit acc _ _ => bounded acc
                     | FetchThrew _ _ => True
                     | LoopDone st => bounded (allMessages st)
                     end)).
  - auto.
  - auto.
  - intros st r Hinv _ _ _. exact Hinv.
  - intros st r _ Hlt _ _. apply belowTarget_iff in Hlt.
    pose proof (for_loop_length params startDate endDate (sort (valuesOf r))
                  (allMessages st) Hlt) as Hlen.
    destruct (for_loop params startDate endDate (allMessages st)
                (sort (valuesOf r))) as [acc msg | acc];
      unfold bounded; simpl in *; lia.
  - unfold bounded. simpl. lia.
Qed.

(** Rounding up keeps a number within a whole bound, and leaves a whole
    number as it is. *)
Lemma Qceiling_le_whole (q : Js.Number) (k : Z) :
  (q <= inject_Z k)%Q -> Qceiling q <= k.
Proof.
  intros H. rewrite <- (Qceiling_Z k). now apply Qceiling_resp_le.
Qed.

Lemma Qceiling_whole (q : Js.Number) (k : Z) :
  (q == inject_Z k)%Q -> Qceiling q = k.
Proof.
  intros H. rewrite <- (Qceiling_Z k). now apply Qceiling_comp.
Qed.

(** C2, as amended.  The message sequence of a successful response of
    [discord_get_messages_advanced] is no longer than the target count
    rounded up to a whole number, and is empty when the target count is
    zero or negative; the target count is the supplied limit, or 50 when
    the limit is omitted or 0.  Hence the sequence is no longer than the
    target count itself when that is a non-negative whole number, and no
    longer than 100 when the target count is at most 100, as it is by
    default and for every limit of the declared range 1..100.  The
    method neither rounds the limit nor caps it. *)
Theorem advanced_length_within_target
    (parseDate : string -> Js.Date) (client : Client.t) (params : Params.t)
    (result : ToolResult.t) :
  getMessagesAdvanced parseDate client params = Normal result ->
  Z.of_nat (List.length (messagesOf result))
  <= Z.max 0 (Qceiling (targetLimit params))
  /\ ((targetLimit params <= 0)%Q -> messagesOf result = [])
  /\ (forall k : Z,
        (targetLimit params == inject_Z k)%Q -> 0 <= k ->
        Z.of_nat (List.length (messagesOf result)) <= k)
  /\ ((targetLimit params <= 100)%Q ->
      Z.of_nat (List.length (messagesOf result)) <= 100)
  /\ match Params.limit params with
     | Some v =>
         (v == 0 /\ targetLimit params = 50%Q)%Q
         \/ (~ v == 0 /\ targetLimit params = v)%Q
     | None => targetLimit params = 50%Q
     end.
Proof.
  intros H.
  assert (Hlen : Z.of_nat (List.length (messagesOf result))
                 <= Z.max 0 (Qceiling (targetLimit params))).
  { revert H.
    apply (advanced_messages_from_scan parseDate client params result
             (fun acc => Z.of_nat (List.length acc)
                         <= Z.max 0 (wholeTarget params))).
    intros textChannel. apply scan_length. }
  split; [exact Hlen | split; [| split; [| split]]].
  - intros Hneg. apply (Qceiling_le_whole _ 0) in Hneg.
    destruct (messagesOf result) as [|m rest]; [reflexivity |].
    simpl List.length in Hlen. lia.
  - intros k Hk Hpos. rewrite (Qceiling_whole _ k Hk) in Hlen. lia.
  - intros Hcap. apply (Qceiling_le_whole _ 100) in Hcap. lia.
  - apply targetLimit_cases.
Qed.

Lemma advanced_length_within_target_witness :
  getMessagesAdvanced Sample.parseDate Sample.largeClient
    (advancedParams Sample.noArgs)
  = Normal (callToolHandler Sample.parseDate Sample.largeClient
              (advancedRequest Sample.noArgs))
  /\ Z.of_nat (List.length (messagesOf
                  (callToolHandler Sample.parseDate Sample.largeClient
                     (advancedRequest Sample.noArgs)))) <= 50.
Proof.
  split.
  - vm_compute. reflexivity.
  - apply (advanced_length_within_target Sample.parseDate Sample.largeClient
             (advancedParams Sample.noArgs)
             (callToolHandler Sample.parseDate Sample.largeClient
                (advancedRequest Sample.noArgs)));
      [vm_compute; reflexivity | reflexivity | lia].
Defined.

(** C2 as stated fails inside the declared range: a limit of 1.5 is a
    number between the minimum 1 and the maximum 100, the target count is
    1.5, and the response carries two messages. *)
Lemma fractional_limit_is_exceeded :
  Args.limit Sample.limitOneAndHalf = Some (3 # 2)%Q
  /\ (1 <= 3 # 2)%Q /\ (3 # 2 <= 100)%Q
  /\ targetLimit (advancedParams Sample.limitOneAndHalf) = (3 # 2)%Q
  /\ List.length (messagesOf
                    (callToolHandler Sample.parseDate Sample.smallClient
                       (advancedRequest Sample.limitOneAndHalf))) = 2%nat
  /\ (targetLimit (advancedParams Sample.limitOneAndHalf) < Js.ofNat 2)%Q.
Proof.
  split; [reflexivity | split; [discriminate | split; [discriminate |]]].
  split; [reflexivity | split; [vm_compute; reflexivity | reflexivity]].
Qed.

(** Nor is there a cap: with limit 101 on a history of 150 messages the
    response carries 101 messages. *)
Lemma limit_above_cap_is_honoured :
  Args.limit Sample.limit101 = Some 101%Q
  /\ 100 < Z.of_nat (List.length (messagesOf
             (callToolHandler Sample.parseDate Sample.largeClient
                (advancedRequest Sample.limit101)))).
Proof. split; vm_compute; reflexivity. Qed.

(* ------------------------------------------------------------------ *)
(** ** The start-date short circuit *)

(** A scan that ends on the [return] inside the [for] ends in the batch
    that its last fetch delivered. *)
Lemma while_loop_short_circuit
    (params : Params.t) (startDate endDate : option Js.Date)
    (textChannel : Channel.t) (budget : nat) (st : ScanState) :
  match while_loop params startDate endDate textChannel budget st with
  | ShortCircuit acc msg issued =>
      olderThan msg startDate = true
      /\ exists earlier options fetchResult,
           issued = earlier ++ [options]
           /\ Channel.messages_fetch textChannel (List.length earlier) options
              = Normal fetchResult
           /\ In msg (valuesOf fetchResult)
  | _ => True
  end.
Proof.
  apply (while_loop_rule params startDate endDate textChannel
           (fun _ => True)
           (fun x => match x with
                     | ShortCircuit acc msg issued =>
                         olderThan msg startDate = true
                         /\ exists earlier options fetchResult,
                              issued = earlier ++ [options]
                              /\ Channel.messages_fetch textChannel
                                   (List.length earlier) options
                                 = Normal fetchResult
                              /\ In msg (valuesOf fetchResult)
                     | _ => True
                     end)); auto.
  intros s r _ _ Hfetch _.
  destruct (for_loop params startDate endDate (allMessages s)
              (sort (valuesOf r))) as [acc msg | acc] eqn:E; [| exact I].
  destruct (for_loop_returned _ _ _ _ _ _ _ E) as [Hin Hold].
  split; [exact Hold |].
  exists (calls s), (fetchOptionsOf params s), r.
  split; [reflexivity | split; [exact Hfetch | now apply sort_In]].
Qed.

Lemma scan_short_circuit
    (params : Params.t) (startDate endDate : option Js.Date)
    (textChannel : Channel.t) (acc : list MessageInfo.t) (msg : Message.t)
    (issued : list FetchOptions.t) :
  scan params startDate endDate textChannel = ShortCircuit acc msg issued ->
  olderThan msg startDate = true
  /\ exists earlier options fetchResult,
       issued = earlier ++ [options]
       /\ Channel.messages_fetch textChannel (List.length earlier) options
          = Normal fetchResult
       /\ In msg (valuesOf fetchResult).
Proof.
  unfold scan. intros H.
  pose proof (while_loop_short_circuit params startDate endDate textChannel
                maxIterations (initialState params)) as Hlast.
  rewrite H in Hlast. exact Hlast.
Qed.

Lemma olderThan_parsed (parseDate : string -> Js.Date) (x : option string)
    (msg : Message.t) :
  olderThan msg (dateOf parseDate x) = true ->
  exists s t, Js.truthy x = Some s /\ parseDate s = Some t
              /\ Message.createdTimestamp msg < t.
Proof.
  unfold olderThan, dateOf.
  destruct (Js.truthy x) as [s|]; [| discriminate].
  destruct (parseDate s) as [t|] eqn:E; simpl; [| discriminate].
  intros H. apply Z.ltb_lt in H. now exists s, t.
Qed.

(** C3.  With a start date, the [for] loop returns at once on a message
    older than it; that return ends the whole scan with no further
    [messages.fetch] (the fetch that delivered the message is the last one
    issued); and every message of the response is at least as new as the
    start date, hence newer than the message that ended the scan. *)
Theorem start_date_short_circuit
    (parseDate : string -> Js.Date) (client : Client.t) (params : Params.t) :
  let startDate := dateOf parseDate (Params.startDate params) in
  let endDate := dateOf parseDate (Params.endDate params) in
  (forall acc msg rest,
      olderThan msg startDate = true ->
      for_loop params startDate endDate acc (msg :: rest) = Returned acc msg)
  /\ (forall textChannel budget st fetchResult acc msg,
         belowTarget params st ->
         Channel.messages_fetch textChannel (List.length (calls st))
           (fetchOptionsOf params st) = Normal fetchResult ->
         for_loop params startDate endDate (allMessages st)
           (sort (valuesOf fetchResult)) = Returned acc msg ->
         while_loop params startDate endDate textChannel (S budget) st
         = ShortCircuit acc msg (calls st ++ [fetchOptionsOf params st]))
  /\ (forall textChannel acc msg issued,
         ensureDiscordReady client = Normal tt ->
         fetchTextChannel client (Params.channelId params)
         = Normal textChannel ->
         scan params startDate endDate textChannel
         = ShortCircuit acc msg issued ->
         getMessagesAdvanced parseDate client params
         = Normal (textResult (shortCircuitText acc))
         /\ advancedFetches parseDate client params = issued
         /\ (exists s t,
                Js.truthy (Params.startDate params) = Some s
                /\ parseDate s = Some t
                /\ Message.createdTimestamp msg < t
                /\ Forall (fun m => t <= MessageInfo.timestamp m) acc)
         /\ Forall (fun m => Message.createdTimestamp msg
                             < MessageInfo.timestamp m) acc
         /\ exists earlier options fetchResult,
              issued = earlier ++ [options]
              /\ Channel.messages_fetch textChannel (List.length earlier)
                   options = Normal fetchResult
              /\ In msg (valuesOf fetchResult)).
Proof.
  intros startDate endDate. split; [| split].
  - intros acc msg rest Hold. cbn [for_loop]. now rewrite Hold.
  - intros textChannel budget st fetchResult acc msg Hlt Hfetch Hfor.
    rewrite (while_loop_step params startDate endDate textChannel budget st Hlt).
    rewrite Hfetch. cbv zeta.
    destruct (valuesOf fetchResult) as [|m rest]; [discriminate |].
    now rewrite Hfor.
  - intros textChannel acc msg issued Hready Hchannel Hscan.
    destruct (scan_short_circuit params startDate endDate textChannel
                acc msg issued Hscan) as [Hold Hissued].
    destruct (olderThan_parsed parseDate _ msg Hold) as [s [t [Hs [Ht Hlt]]]].
    assert (Hacc : Forall (fun m => t <= MessageInfo.timestamp m) acc).
    { pose proof (scan_Forall params startDate endDate
                    (fun m => t <= MessageInfo.timestamp m)) as HF.
      specialize (HF (fun m Hp =>
                        sat_start _ _ _ (passes_Satisfies parseDate params m Hp)
                          s t Hs Ht) textChannel).
      now rewrite Hscan in HF. }
    split; [| split; [| split; [| split]]].
    + unfold getMessagesAdvanced. rewrite Hready, Hchannel, !bind_Normal.
      cbv zeta. unfold startDate, endDate in Hscan. now rewrite Hscan.
    + unfold advancedFetches. rewrite Hready, Hchannel.
      unfold startDate, endDate in Hscan. now rewrite Hscan.
    + now exists s, t.
    + eapply Forall_impl; [| exact Hacc]. simpl. intros; lia.
    + exact Hissued.
Qed.

Lemma start_date_short_circuit_witness :
  let params := advancedParams Sample.since2024 in
  let textChannel := Sample.channel (Sample.history 24) in
  let acc := map project (map Sample.message (rev (seq 10 15))) in
  let first := FetchOptions.make 100%Q None None in
  ensureDiscordReady Sample.smallClient = Normal tt
  /\ fetchTextChannel Sample.smallClient (Params.channelId params)
     = Normal textChannel
  /\ scan params (dateOf Sample.parseDate (Params.startDate params))
       (dateOf Sample.parseDate (Params.endDate params)) textChannel
     = ShortCircuit acc (Sample.message 9) [first]
  /\ advancedFetches Sample.parseDate Sample.smallClient params = [first]
  /\ Forall (fun m => Message.createdTimestamp (Sample.message 9)
                      < MessageInfo.timestamp m) acc.
Proof.
  cbv zeta.
  assert (H1 : ensureDiscordReady Sample.smallClient = Normal tt)
    by reflexivity.
  assert (H2 : fetchTextChannel Sample.smallClient
                 (Params.channelId (advancedParams Sample.since2024))
               = Normal (Sample.channel (Sample.history 24)))
    by reflexivity.
  assert (H3 : scan (advancedParams Sample.since2024)
                 (dateOf Sample.parseDate
                    (Params.startDate (advancedParams Sample.since2024)))
                 (dateOf Sample.parseDate
                    (Params.endDate (advancedParams Sample.since2024)))
                 (Sample.channel (Sample.history 24))
               = ShortCircuit
                   (map project (map Sample.message (rev (seq 10 15))))
                   (Sample.message 9) [FetchOptions.make 100%Q None None])
    by (vm_compute; reflexivity).
  pose proof (start_date_short_circuit Sample.parseDate Sample.smallClient
                (advancedParams Sample.since2024)) as H.
  cbv zeta in H. destruct H as [_ [_ H]].
  destruct (H _ _ _ _ H1 H2 H3) as [_ [Hfetches [_ [Hnewer _]]]].
  repeat split; assumption.
Defined.

(* ------------------------------------------------------------------ *)
(** ** The order of the result *)

Lemma StronglySorted_app {A : Type} (R : A -> A -> Prop) (l1 l2 : list A) :
  StronglySorted R l1 -> StronglySorted R l2 ->
  (forall x y, In x l1 -> In y l2 -> R x y) ->
  StronglySorted R (l1 ++ l2).
Proof.
  induction l1 as [|a l1 IH]; intros H1 H2 Hcross; simpl.
  - exact H2.
  - inversion H1 as [|? ? Hl1 Ha]; subst. constructor.
    + apply IH; [assumption | assumption |].
      intros x y Hx Hy. apply Hcross; [now right | assumption].
    + apply Forall_app. split; [exact Ha |].
      apply Forall_forall. intros y Hy. apply Hcross; [now left | assumption].
Qed.

Lemma project_descending (l : list Message.t) :
  Descending l -> NonIncreasing (map project l).
Proof.
  unfold Descending, NonIncreasing.
  induction 1 as [|a l _ IH Ha]; simpl; constructor.
  - exact IH.
  - apply Forall_map. exact Ha.
Qed.

Lemma scan_ordered (idTime : string -> Z) (params : Params.t)
    (startDate endDate : option Js.Date) (textChannel : Channel.t) :
  HonoursCursor idTime textChannel ->
  match scan params startDate endDate textChannel with
  | ShortCircuit acc _ _ => NonIncreasing acc
  | FetchThrew _ _ => True
  | LoopDone st => NonIncreasing (allMessages st)
  end.
Proof.
  intros Hcontract. unfold scan.
  apply (while_loop_rule params startDate endDate textChannel
           (Walked idTime)
           (fun x => match x with
                     | ShortCircuit acc _ _ => NonIncreasing acc
                     | FetchThrew _ _ => True
                     | LoopDone st => NonIncreasing (allMessages st)
                     end)).
  - intros st [H _]. exact H.
  - auto.
  - intros st r Hinv _ _ _. exact Hinv.
  - intros st r [Hsorted Hbound] _ Hfetch Hne.
    specialize (Hcontract _ _ _ Hfetch).
    apply sort_Forall in Hcontract. rewrite Forall_forall in Hcontract.
    pose proof (sort_descending (valuesOf r)) as Hdesc.
    destruct (for_loop_kept params startDate endDate (sort (valuesOf r))
                (allMessages st)) as [kept [Hacc [Hsub _]]].
    (* the new accumulator is in order *)
    assert (Hnew : NonIncreasing (allMessages st ++ map project kept)).
    { apply StronglySorted_app.
      - exact Hsorted.
      - apply project_descending.
        exact (Subseq_sorted _ _ _ Hsub Hdesc).
      - intros p q Hp Hq.
        apply in_map_iff in Hq. destruct Hq as [m [<- Hm]].
        apply (Subseq_In _ _ _ Hsub) in Hm.
        destruct (Hcontract m Hm) as [_ [Hstamp Hbefore]].
        destruct Hbound as [Hnil | [c [Hc [Hcne Hall]]]].
        + rewrite Hnil in Hp. contradiction.
        + rewrite Forall_forall in Hall. specialize (Hall p Hp).
          assert (Hopt : FetchOptions.before (fetchOptionsOf params st)
                         = Some c).
          { simpl. rewrite Hc. destruct c; [contradiction | reflexivity]. }
          specialize (Hbefore c Hopt). simpl. lia. }
    destruct (for_loop params startDate endDate (allMessages st)
                (sort (valuesOf r))) as [acc msg | acc];
      simpl in Hacc; subst acc; [exact Hnew |].
    split; [exact Hnew |]. right. simpl.
    destruct (lastOf_nonempty (sort (valuesOf r))) as [z Hz].
    { intros E. apply Hne. apply Permutation_nil.
      rewrite <- E. apply Permutation_sym, sort_perm. }
    rewrite Hz. destruct (lastOf_oldest _ _ Hdesc Hz) as [Hzin Hzold].
    destruct (Hcontract z Hzin) as [Hzid [Hzstamp Hzbefore]].
    exists (Message.id z). split; [reflexivity | split; [exact Hzid |]].
    apply Forall_app. split.
    + destruct Hbound as [Hnil | [c [Hc [Hcne Hall]]]].
      * rewrite Hnil. constructor.
      * assert (Hopt : FetchOptions.before (fetchOptionsOf params st)
                       = Some c).
        { simpl. rewrite Hc. destruct c; [contradiction | reflexivity]. }
        specialize (Hzbefore c Hopt).
        eapply Forall_impl; [| exact Hall]. simpl. intros; lia.
    + apply Forall_map. apply (Subseq_Forall _ _ _ Hsub).
      eapply Forall_impl; [| exact Hzold]. simpl. intros; lia.
  - split; [constructor | now left].
Qed.

(** C4, as amended.  When every batch fetch of the channel honours its
    [before] cursor (message identifiers are non-empty and carry the
    creation time, and a batch requested before a cursor holds no message
    newer than the cursor's), the message sequence of every successful
    response of [discord_get_messages_advanced] is non-increasing in
    timestamp: no later element is newer than an earlier one.  The method
    does not secure the condition itself: it sends [after] along with
    [before]. *)
Theorem advanced_results_newest_first
    (parseDate : string -> Js.Date) (client : Client.t) (params : Params.t)
    (result : ToolResult.t) (idTime : string -> Z) :
  (forall channelId textChannel,
      Client.channels_fetch client channelId = Normal (Some textChannel) ->
      HonoursCursor idTime textChannel) ->
  getMessagesAdvanced parseDate client params = Normal result ->
  NonIncreasing (messagesOf result).
Proof.
  intros Hcontract H.
  destruct (getMessagesAdvanced_Normal _ _ _ _ H) as [ch [_ [Hch Hexit]]].
  assert (Hhonours : HonoursCursor idTime ch).
  { unfold fetchTextChannel in Hch.
    destruct (Client.channels_fetch client (Params.channelId params))
      as [[ch' |] | e] eqn:E; simpl in Hch; try discriminate.
    destruct (Channel.isTextBased ch'); [| discriminate].
    injection Hch as ->. exact (Hcontract _ _ E). }
  pose proof (scan_ordered idTime params
                (dateOf parseDate (Params.startDate params))
                (dateOf parseDate (Params.endDate params)) ch Hhonours)
    as Hscan.
  cbv zeta in Hexit.
  destruct Hexit as [[acc [msg [issued [E ->]]]] | [st [summary [E [_ ->]]]]];
    rewrite E in Hscan.
  - now rewrite messagesOf_shortCircuit.
  - now rewrite messagesOf_advanced.
Qed.

(** The sample channel honours its cursor when its messages are stamped. *)
Lemma sample_channel_honours (messages : list Message.t) :
  forallb Sample.wellStamped messages = true ->
  HonoursCursor Sample.idTime (Sample.channel messages).
Proof.
  intros Hstamped n options fetchResult Hfetch.
  simpl in Hfetch. injection Hfetch as <-. simpl.
  apply Forall_forall. intros m Hm.
  assert (Hin : In m (filter (Sample.inWindow options) messages)).
  { revert Hm. generalize (filter (Sample.inWindow options) messages).
    generalize (Z.to_nat (Qfloor (FetchOptions.limit options))).
    intros k. induction k as [|k IH]; intros l Hm; [contradiction |].
    destruct l as [|x l]; [contradiction |].
    destruct Hm as [-> | Hm]; [now left | right; now apply IH]. }
  apply filter_In in Hin. destruct Hin as [Hmem Hwin].
  rewrite forallb_forall in Hstamped. specialize (Hstamped m Hmem).
  unfold Sample.wellStamped in Hstamped.
  apply andb_true_iff in Hstamped. destruct Hstamped as [Hid Hts].
  apply negb_true_iff, String.eqb_neq in Hid. apply Z.eqb_eq in Hts.
  split; [exact Hid | split; [exact Hts |]].
  intros c Hc. unfold Sample.inWindow in Hwin. rewrite Hc in Hwin.
  apply andb_true_iff in Hwin. destruct Hwin as [Hlt _].
  apply Z.ltb_lt in Hlt. unfold Sample.idTime. lia.
Qed.

Lemma advanced_results_newest_first_witness :
  getMessagesAdvanced Sample.parseDate Sample.largeClient
    (advancedParams Sample.limit101)
  = Normal (callToolHandler Sample.parseDate Sample.largeClient
              (advancedRequest Sample.limit101))
  /\ NonIncreasing
       (messagesOf (callToolHandler Sample.parseDate Sample.largeClient
                      (advancedRequest Sample.limit101))).
Proof.
  split.
  - vm_compute. reflexivity.
  - apply (advanced_results_newest_first Sample.parseDate Sample.largeClient
             (advancedParams Sample.limit101) _ Sample.idTime).
    + intros channelId textChannel Hch. simpl in Hch.
      injection Hch as <-. apply sample_channel_honours.
      vm_compute. reflexivity.
    + vm_compute. reflexivity.
Defined.

(** In a non-increasing sequence a later element is not newer than an
    earlier one. *)
Lemma NonIncreasing_nth_error (l : list MessageInfo.t) :
  NonIncreasing l ->
  forall i j a b,
    (i < j)%nat -> nth_error l i = Some a -> nth_error l j = Some b ->
    MessageInfo.timestamp b <= MessageInfo.timestamp a.
Proof.
  unfold NonIncreasing.
  induction 1 as [|x rest Hrest IH Hx]; intros i j a b Hij Ha Hb.
  - destruct i; discriminate.
  - destruct j as [|j]; [lia |]. cbn [nth_error] in Hb.
    destruct i as [|i].
    + injection Ha as <-. rewrite Forall_forall in Hx.
      apply Hx. eapply nth_error_In. exact Hb.
    + cbn [nth_error] in Ha. apply (IH i j a b); [lia | exact Ha | exact Hb].
Qed.

(** C4 as stated fails.  The query names an [after] cursor; the method
    sends it along with [before] on the second fetch, and the channel,
    letting [after] take precedence, delivers the newest hundred messages
    again: message 150 is returned a second time, behind message 51. *)
Lemma after_cursor_breaks_the_order :
  getMessagesAdvanced Sample.parseDate Sample.afterFirstClient
    (advancedParams Sample.errorsAfterFirst)
  = Normal (callToolHandler Sample.parseDate Sample.afterFirstClient
              (advancedRequest Sample.errorsAfterFirst))
  /\ advancedFetches Sample.parseDate Sample.afterFirstClient
       (advancedParams Sample.errorsAfterFirst)
     = [FetchOptions.make 100%Q None (Some "1");
        FetchOptions.make 100%Q (Some "51") (Some "1")]
  /\ nth_error
       (messagesOf (callToolHandler Sample.parseDate Sample.afterFirstClient
                      (advancedRequest Sample.errorsAfterFirst))) 33
     = Some (project (Sample.message 51))
  /\ nth_error
       (messagesOf (callToolHandler Sample.parseDate Sample.afterFirstClient
                      (advancedRequest Sample.errorsAfterFirst))) 34
     = Some (project (Sample.message 150))
  /\ MessageInfo.timestamp (project (Sample.message 51))
     < MessageInfo.timestamp (project (Sample.message 150))
  /\ ~ NonIncreasing
         (messagesOf (callToolHandler Sample.parseDate Sample.afterFirstClient
                        (advancedRequest Sample.errorsAfterFirst))).
Proof.
  assert (H33 : nth_error
                  (messagesOf
                     (callToolHandler Sample.parseDate Sample.afterFirstClient
                        (advancedRequest Sample.errorsAfterFirst))) 33
                = Some (project (Sample.message 51)))
    by (vm_compute; reflexivity).
  assert (H34 : nth_error
                  (messagesOf
                     (callToolHandler Sample.parseDate Sample.afterFirstClient
                        (advancedRequest Sample.errorsAfterFirst))) 34
                = Some (project (Sample.message 150)))
    by (vm_compute; reflexivity).
  assert (Hts : MessageInfo.timestamp (project (Sample.message 51))
                < MessageInfo.timestamp (project (Sample.message 150)))
    by (vm_compute; reflexivity).
  split; [vm_compute; reflexivity | split; [vm_compute; reflexivity |]].
  split; [exact H33 | split; [exact H34 | split; [exact Hts |]]].
  intros Hsorted.
  pose proof (NonIncreasing_nth_error _ Hsorted 33 34 _ _
                (Nat.lt_succ_diag_r 33) H33 H34) as Hle.
  lia.
Qed.

(* ------------------------------------------------------------------ *)
(** ** The iteration budget *)

(** Every iteration issues one fetch and spends one unit of budget. *)
Lemma while_loop_fetch_budget
    (params : Params.t) (startDate endDate : option Js.Date)
    (textChannel : Channel.t) (budget : nat) :
  forall st,
    (List.length
       (issuedBy (while_loop params startDate endDate textChannel budget st))
     <= List.length (calls st) + budget)%nat.
Proof.
  induction budget as [|budget IH]; intros st.
  - rewrite while_loop_spent. simpl. lia.
  - destruct (belowTarget_dec params st) as [Hlt | Hge].
    + rewrite (while_loop_step params startDate endDate textChannel budget st
                 Hlt).
      destruct (Channel.messages_fetch textChannel (List.length (calls st))
                  (fetchOptionsOf params st)) as [r | e].
      * cbv zeta. destruct (valuesOf r) as [|m rest].
        -- simpl. rewrite length_app. simpl. lia.
        -- destruct (for_loop params startDate endDate (allMessages st)
                       (sort (m :: rest))) as [acc msg | acc].
           ++ simpl. rewrite length_app. simpl. lia.
           ++ destruct (List.length (m :: rest) <? 100)%nat.
              ** simpl. rewrite length_app. simpl. lia.
              ** specialize (IH (afterBatch params st (m :: rest) acc)).
                 simpl in IH. rewrite length_app in IH. simpl in IH. lia.
      * simpl. rewrite length_app. simpl. lia.
    + rewrite (while_loop_stop params startDate endDate textChannel
                 (S budget) st Hge).
      simpl. lia.
Qed.

(** The budget is the loop counter read backward: a loop entered with
    [iterations + budget = maxIterations] leaves with [iterations] at most
    [maxIterations], having issued one fetch per iteration. *)
Lemma while_loop_iterations
    (params : Params.t) (startDate endDate : option Js.Date)
    (textChannel : Channel.t) (budget : nat) :
  forall st,
    match while_loop params startDate endDate textChannel budget st with
    | LoopDone st' =>
        (iterations st' <= iterations st + budget)%nat
        /\ (List.length (calls st') + iterations st
            = List.length (calls st) + iterations st')%nat
    | _ => True
    end.
Proof.
  induction budget as [|budget IH]; intros st.
  - rewrite while_loop_spent. split; lia.
  - destruct (belowTarget_dec params st) as [Hlt | Hge].
    + rewrite (while_loop_step params startDate endDate textChannel budget st
                 Hlt).
      destruct (Channel.messages_fetch textChannel (List.length (calls st))
                  (fetchOptionsOf params st)) as [r | e]; [| exact I].
      cbv zeta. destruct (valuesOf r) as [|m rest].
      * simpl. rewrite length_app. simpl. split; lia.
      * destruct (for_loop params startDate endDate (allMessages st)
                    (sort (m :: rest))) as [acc msg | acc]; [exact I |].
        destruct (List.length (m :: rest) <? 100)%nat.
        -- simpl. rewrite length_app. simpl. split; lia.
        -- specialize (IH (afterBatch params st (m :: rest) acc)).
           destruct (while_loop params startDate endDate textChannel budget
                       (afterBatch params st (m :: rest) acc))
             as [| | st']; try exact I.
           simpl in IH. rewrite length_app in IH. simpl in IH.
           destruct IH as [IH1 IH2]. split; lia.
    + rewrite (while_loop_stop params startDate endDate textChannel
                 (S budget) st Hge).
      split; lia.
Qed.

(** Whatever the query and the history, one invocation of the advanced
    retrieval issues at most [maxIterations] = 10 fetches. *)
Lemma advanced_fetch_budget
    (parseDate : string -> Js.Date) (client : Client.t) (params : Params.t) :
  (List.length (advancedFetches parseDate client params) <= maxIterations)%nat
  /\ (8 <= maxIterations <= 12)%nat.
Proof.
  split; [| unfold maxIterations; lia].
  unfold advancedFetches.
  destruct (ensureDiscordReady client); [| simpl; lia].
  destruct (fetchTextChannel client (Params.channelId params)) as [ch | e];
    [| simpl; lia].
  unfold scan.
  pose proof (while_loop_fetch_budget params
                (dateOf parseDate (Params.startDate params))
                (dateOf parseDate (Params.endDate params)) ch
                maxIterations (initialState params)) as H.
  exact H.
Qed.

(** When no message of the history passes the tests, the scan ends with
    an empty accumulator, on whichever exit. *)
Lemma scan_nothing_matches
    (params : Params.t) (startDate endDate : option Js.Date)
    (textChannel : Channel.t) :
  (forall n options fetchResult,
      Channel.messages_fetch textChannel n options = Normal fetchResult ->
      Forall (fun m => passes params startDate endDate m = false)
        (valuesOf fetchResult)) ->
  match scan params startDate endDate textChannel with
  | ShortCircuit acc _ _ => acc = []
  | FetchThrew _ _ => True
  | LoopDone st => allMessages st = []
  end.
Proof.
  intros Hnone. unfold scan.
  apply (while_loop_rule params startDate endDate textChannel
           (fun st => allMessages st = [])
           (fun x => match x with
                     | ShortCircuit acc _ _ => acc = []
                     | FetchThrew _ _ => True
                     | LoopDone st => allMessages st = []
                     end)); auto.
  intros st r Hinv _ Hfetch _.
  destruct (for_loop_kept params startDate endDate (sort (valuesOf r))
              (allMessages st)) as [kept [Hacc [Hsub Hpass]]].
  assert (Hkept : kept = []).
  { destruct kept as [|m kept']; [reflexivity | exfalso].
    inversion Hpass as [|? ? Hm _]; subst.
    pose proof (sort_Forall _ _ (Hnone _ _ _ Hfetch)) as Hall.
    rewrite Forall_forall in Hall.
    rewrite (Hall m) in Hm; [discriminate |].
    apply (Subseq_In _ _ _ Hsub). now left. }
  subst kept.
  destruct (for_loop params startDate endDate (allMessages st)
              (sort (valuesOf r))) as [acc msg | acc];
    simpl in Hacc; rewrite Hinv in Hacc; exact Hacc.
Qed.

(** On the final [return] the response opens with its title line and
    holds the summary and then the messages; the summary's total is the
    number of messages. *)
Lemma final_return_has_summary (summary : Summary.t)
    (acc : list MessageInfo.t) :
  summaryThenMessages (textOf (textResult (advancedText summary acc))) = true
  /\ summariesOf (textResult (advancedText summary acc)) = [summary].
Proof. split; reflexivity. Qed.

(** On the [return] inside the [for] the response holds no summary. *)
Lemma early_return_has_no_summary (acc : list MessageInfo.t) :
  summaryThenMessages (textOf (textResult (shortCircuitText acc))) = false
  /\ summariesOf (textResult (shortCircuitText acc)) = [].
Proof. split; reflexivity. Qed.

(** C5, at the failing input.  A query whose start date is later than
    every message matches nothing; the scan issues one fetch and answers
    with the count line and an empty array, without any summary. *)
Theorem unmatched_start_date_returns_no_summary :
  let response :=
    callToolHandler Sample.parseDate Sample.smallClient
      (advancedRequest Sample.sinceEndOf2024) in
  response = textResult (shortCircuitText [])
  /\ messagesOf response = []
  /\ summariesOf response = []
  /\ advancedFetches Sample.parseDate Sample.smallClient
       (advancedParams Sample.sinceEndOf2024)
     = [FetchOptions.make 100%Q None None].
Proof. cbv zeta. repeat split; vm_compute; reflexivity. Qed.

(** On a history deeper than the budget a keyword that matches nothing
    costs exactly ten fetches, a thousand messages read, and is answered
    with the summary and an empty array. *)
Example budget_exhausted_on_deep_history :
  let response :=
    callToolHandler Sample.parseDate Sample.deepClient
      (advancedRequest Sample.keywordAbsent) in
  List.length (advancedFetches Sample.parseDate Sample.deepClient
                 (advancedParams Sample.keywordAbsent)) = 10%nat
  /\ (messagesOf response,
      map (fun s => (Summary.total s,
                     Summary.totalFetched (Summary.pagination s)))
        (summariesOf response),
      summaryThenMessages (textOf response))
     = ([], [(0%nat, 1000%nat)], true).
Proof. cbv zeta. split; vm_compute; reflexivity. Qed.

(* ------------------------------------------------------------------ *)
(** ** The end-date skip *)

Section EndDate.

Variable params : Params.t.
Variables startDate endDate : option Js.Date.

Abbreviation for_loop' := (for_loop params startDate endDate).




End EndDate.



(* ------------------------------------------------------------------ *)
(** ** Dates that do not parse *)

(** In the loop an Invalid Date acts as no date at all: both comparisons
    with it are false. *)
Lemma for_loop_invalid_dates (params : Params.t)
    (startDate endDate : option Js.Date) (batch : list Message.t) :
  forall acc,
    for_loop params
      (match startDate with Some None => None | d => d end)
      (match endDate with Some None => None | d => d end) acc batch
    = for_loop params startDate endDate acc batch.
Proof.
  induction batch as [|msg rest IH]; intros acc; [reflexivity |].
  cbn [for_loop].
  assert (Eold : olderThan msg
                   (match startDate with Some None => None | d => d end)
                 = olderThan msg startDate)
    by (destruct startDate as [[t|]|]; reflexivity).
  assert (Enew : newerThan msg
                   (match endDate with Some None => None | d => d end)
                 = newerThan msg endDate)
    by (destruct endDate as [[t|]|]; reflexivity).
  rewrite Eold, Enew.
  destruct (olderThan msg startDate); [reflexivity |].
  destruct (newerThan msg endDate); [apply IH |].
  destruct (keywordFails params msg); [apply IH |].
  destruct (authorFails params msg); [apply IH |].
  destruct (attachmentFails params msg); [apply IH |].
  destruct (Js.ge (Js.ofNat (List.length (acc ++ [project msg])))
                (targetLimit params));
    [reflexivity | apply IH].
Qed.

(** The summary cannot be built from an Invalid Date. *)
Lemma summaryOf_invalid (params : Params.t)
    (startDate endDate : option Js.Date) (st : ScanState) :
  startDate = Some None \/ endDate = Some None ->
  summaryOf params startDate endDate st
  = Throw (Js.JsError "RangeError" "Invalid time value").
Proof.
  intros [-> | ->]; unfold summaryOf, dateRangeOf.
  - reflexivity.
  - destruct startDate as [[t|]|]; reflexivity.
Qed.

(** A start date that does not parse makes the method throw, whatever the
    history holds. *)
Lemma unparseable_start_date_throws
    (parseDate : string -> Js.Date) (client : Client.t) (params : Params.t)
    (s : string) :
  Js.truthy (Params.startDate params) = Some s ->
  parseDate s = None ->
  exists error, getMessagesAdvanced parseDate client params = Throw error.
Proof.
  intros Hs Hparse. unfold getMessagesAdvanced.
  destruct (ensureDiscordReady client) as [[] | e]; [| now exists e].
  rewrite bind_Normal.
  destruct (fetchTextChannel client (Params.channelId params)) as [ch | e];
    [| now exists e].
  rewrite bind_Normal. cbv zeta.
  assert (Hdate : dateOf parseDate (Params.startDate params) = Some None)
    by (unfold dateOf; now rewrite Hs, Hparse).
  rewrite Hdate.
  destruct (scan params (Some None) (dateOf parseDate (Params.endDate params))
              ch) as [acc msg issued | e issued | st] eqn:Hscan.
  - destruct (scan_short_circuit _ _ _ _ _ _ _ Hscan) as [Hold _].
    discriminate.
  - now exists e.
  - rewrite summaryOf_invalid by now left. rewrite bind_Throw. eauto.
Qed.

(** C7, at the failing input.  With a start date that does not parse the
    invocation answers [Error: Invalid time value], and likewise with such
    an end date, whereas the same query without the date answers normally
    with a summary and the messages; the loop itself ended in the same
    state in both runs. *)
Theorem unparseable_date_is_an_error :
  let run args :=
    callToolHandler Sample.parseDate Sample.smallClient
      (advancedRequest args) in
  let scanOf args :=
    scan (advancedParams args)
      (dateOf Sample.parseDate (Params.startDate (advancedParams args)))
      (dateOf Sample.parseDate (Params.endDate (advancedParams args)))
      (Sample.channel (Sample.history 24)) in
  run Sample.sinceYesterday = textResult [Lit "Error: Invalid time value"]
  /\ run Sample.untilTomorrow = textResult [Lit "Error: Invalid time value"]
  /\ isErrorResult (run Sample.noArgs) = false
  /\ List.length (messagesOf (run Sample.noArgs)) = 24%nat
  /\ scanOf Sample.sinceYesterday = scanOf Sample.noArgs
  /\ scanOf Sample.untilTomorrow = scanOf Sample.noArgs.
Proof. cbv zeta. repeat split; vm_compute; reflexivity. Qed.

(* ------------------------------------------------------------------ *)
(** ** The two success payloads *)

(** C8, at the failing input.  On the start-date short circuit the
    response is the count line and the message array, with no summary
    record between them; the same history queried without the start date
    is answered with title line, summary and messages. *)
Theorem short_circuit_response_has_no_summary :
  let early :=
    callToolHandler Sample.parseDate Sample.smallClient
      (advancedRequest Sample.since2024) in
  let final :=
    callToolHandler Sample.parseDate Sample.smallClient
      (advancedRequest Sample.noArgs) in
  early
  = textResult
      (shortCircuitText (map project (map Sample.message (rev (seq 10 15)))))
  /\ isErrorResult early = false
  /\ summaryThenMessages (textOf early) = false
  /\ summariesOf early = []
  /\ summaryThenMessages (textOf final) = true
  /\ List.length (summariesOf final) = 1%nat.
Proof. cbv zeta. repeat split; vm_compute; reflexivity. Qed.

(* ------------------------------------------------------------------ *)
(** ** The dispatch boundary *)

Section Dispatch.

Variable parseDate : string -> Js.Date.
Variable client : Client.t.

(** Every tool method begins by making the client ready. *)
Lemma toolSwitch_not_ready (request : Request.t) (args : Args.t)
    (error : Js.Exn) :
  Request.arguments request = Some args ->
  knownTool (Request.name request) = true ->
  ensureDiscordReady client = Throw error ->
  toolSwitch parseDate client request = Throw error.
Proof.
  intros Hargs Hknown Hready. unfold toolSwitch, knownTool in *.
  rewrite Hargs.
  destruct (String.eqb (Request.name request) "discord_send_message");
    [unfold sendMessage; now rewrite Hready |].
  destruct (String.eqb (Request.name request) "discord_send_image");
    [unfold sendImage; now rewrite Hready |].
  destruct (String.eqb (Request.name request) "discord_get_messages");
    [unfold getMessages; now rewrite Hready |].
  destruct (String.eqb (Request.name request) "discord_get_images");
    [unfold getImages; now rewrite Hready |].
  destruct (String.eqb (Request.name request)
              "discord_get_messages_advanced");
    [unfold getMessagesAdvanced; now rewrite Hready | discriminate].
Qed.

(** And goes on by looking its channel up. *)
Lemma toolSwitch_no_channel (request : Request.t) (args : Args.t)
    (error : Js.Exn) :
  Request.arguments request = Some args ->
  knownTool (Request.name request) = true ->
  ensureDiscordReady client = Normal tt ->
  fetchTextChannel client (Args.channel_id args) = Throw error ->
  toolSwitch parseDate client request = Throw error.
Proof.
  intros Hargs Hknown Hready Hchannel. unfold toolSwitch, knownTool in *.
  rewrite Hargs.
  destruct (String.eqb (Request.name request) "discord_send_message");
    [unfold sendMessage; now rewrite Hready, Hchannel |].
  destruct (String.eqb (Request.name request) "discord_send_image");
    [unfold sendImage; now rewrite Hready, Hchannel |].
  destruct (String.eqb (Request.name request) "discord_get_messages");
    [unfold getMessages; now rewrite Hready, Hchannel |].
  destruct (String.eqb (Request.name request) "discord_get_images");
    [unfold getImages; now rewrite Hready, Hchannel |].
  destruct (String.eqb (Request.name request)
              "discord_get_messages_advanced"); [| discriminate].
  unfold getMessagesAdvanced, advancedParams.
  cbn [Params.channelId]. now rewrite Hready, Hchannel.
Qed.

Lemma toolSwitch_unknown (request : Request.t) (args : Args.t) :
  Request.arguments request = Some args ->
  knownTool (Request.name request) = false ->
  toolSwitch parseDate client request
  = Throw (Js.mkError ("Unknown tool: " ++ Request.name request)%string).
Proof.
  intros Hargs Hknown. unfold toolSwitch, knownTool in *. rewrite Hargs.
  repeat (apply orb_false_iff in Hknown; destruct Hknown as [Hknown ?]).
  repeat match goal with H : String.eqb _ _ = false |- _ =>
                           rewrite H; clear H end.
  reflexivity.
Qed.

(** A fetch that fails in any iteration makes the advanced retrieval
    throw what the fetch threw. *)
Lemma advanced_fetch_failure (params : Params.t) (textChannel : Channel.t)
    (error : Js.Exn) (issued : list FetchOptions.t) :
  ensureDiscordReady client = Normal tt ->
  fetchTextChannel client (Params.channelId params) = Normal textChannel ->
  scan params (dateOf parseDate (Params.startDate params))
    (dateOf parseDate (Params.endDate params)) textChannel
  = FetchThrew error issued ->
  getMessagesAdvanced parseDate client params = Throw error.
Proof.
  intros Hready Hchannel Hscan. unfold getMessagesAdvanced.
  rewrite Hready, Hchannel, !bind_Normal. cbv zeta. now rewrite Hscan.
Qed.

(** What the [catch] makes of a thrown value. *)
Lemma caught (request : Request.t) (error : Js.Exn) :
  toolSwitch parseDate client request = Throw error ->
  let response := callToolHandler parseDate client request in
  response = textResult [Lit ("Error: " ++ Js.messageOf error)%string]
  /\ isErrorResult response = true
  /\ messagesOf response = []
  /\ summariesOf response = [].
Proof.
  intros H. unfold callToolHandler. rewrite H. cbv zeta.
  repeat split; reflexivity.
Qed.

End Dispatch.

(** The [switch] on a call of the advanced tool. *)
Lemma toolSwitch_advanced
    (parseDate : string -> Js.Date) (client : Client.t) (args : Args.t) :
  toolSwitch parseDate client (advancedRequest args)
  = getMessagesAdvanced parseDate client (advancedParams args).
Proof. reflexivity. Qed.

(** C9.  Whatever makes a tool invocation fail, the handler returns the
    single text item ["Error: " ++ message], with no message array and no
    summary in it, and returns the method's own result otherwise; the
    handler is a total function, so nothing is thrown across it.  In
    particular: missing arguments, an unknown tool name, a client that is
    not ready and has no token, a channel that is not found or not
    text-based, and a fetch that fails in any iteration of the advanced
    scan. *)
Theorem tool_failures_become_error_text
    (parseDate : string -> Js.Date) (client : Client.t)
    (request : Request.t) :
  let response := callToolHandler parseDate client request in
  let errorResult message := textResult [Lit ("Error: " ++ message)%string] in
  match toolSwitch parseDate client request with
  | Normal result => response = result
  | Throw error =>
      response = errorResult (Js.messageOf error)
      /\ isErrorResult response = true
      /\ messagesOf response = []
      /\ summariesOf response = []
  end
  /\ (Request.arguments request = None ->
      response = errorResult "Arguments are required")
  /\ (forall args,
         Request.arguments request = Some args ->
         knownTool (Request.name request) = false ->
         response
         = errorResult ("Unknown tool: " ++ Request.name request)%string)
  /\ (forall args,
         Request.arguments request = Some args ->
         knownTool (Request.name request) = true ->
         Client.isReady client = false ->
         Js.truthy (Client.token client) = None ->
         response
         = errorResult "DISCORD_BOT_TOKEN environment variable is required")
  /\ (forall args,
         Request.arguments request = Some args ->
         knownTool (Request.name request) = true ->
         ensureDiscordReady client = Normal tt ->
         Client.channels_fetch client (Args.channel_id args) = Normal None
         \/ (exists ch,
                Client.channels_fetch client (Args.channel_id args)
                = Normal (Some ch)
                /\ Channel.isTextBased ch = false) ->
         response
         = errorResult "Channel not found or is not a text channel")
  /\ (forall args textChannel error issued,
         request = advancedRequest args ->
         ensureDiscordReady client = Normal tt ->
         fetchTextChannel client (Args.channel_id args)
         = Normal textChannel ->
         scan (advancedParams args)
           (dateOf parseDate (Args.start_date args))
           (dateOf parseDate (Args.end_date args)) textChannel
         = FetchThrew error issued ->
         response = errorResult (Js.messageOf error)
         /\ messagesOf response = []).
Proof.
  cbv zeta. split; [| split; [| split; [| split; [| split]]]].
  - destruct (toolSwitch parseDate client request) as [result | error] eqn:E.
    + unfold callToolHandler. now rewrite E.
    + exact (caught parseDate client request error E).
  - intros Hargs.
    apply (caught parseDate client request
             (Js.mkError "Arguments are required")).
    unfold toolSwitch. now rewrite Hargs.
  - intros args Hargs Hknown.
    apply (caught parseDate client request
             (Js.mkError ("Unknown tool: " ++ Request.name request)%string)).
    now apply (toolSwitch_unknown parseDate client request args).
  - intros args Hargs Hknown Hready Htoken.
    apply (caught parseDate client request
             (Js.mkError
                "DISCORD_BOT_TOKEN environment variable is required")).
    apply (toolSwitch_not_ready parseDate client request args);
      [assumption | assumption |].
    unfold ensureDiscordReady. now rewrite Hready, Htoken.
  - intros args Hargs Hknown Hready Hchannel.
    apply (caught parseDate client request channelError).
    apply (toolSwitch_no_channel parseDate client request args);
      [assumption | assumption | assumption |].
    unfold fetchTextChannel.
    destruct Hchannel as [-> | [ch [-> Htext]]]; simpl;
      [reflexivity | now rewrite Htext].
  - intros args textChannel error issued -> Hready Hchannel Hscan.
    assert (Hthrow : toolSwitch parseDate client (advancedRequest args)
                     = Throw error).
    { rewrite toolSwitch_advanced.
      apply (advanced_fetch_failure parseDate client (advancedParams args)
               textChannel error issued); assumption. }
    destruct (caught parseDate client _ error Hthrow) as [H1 [_ [H2 _]]].
    split; assumption.
Qed.

Lemma tool_failures_become_error_text_witness :
  let textChannel := Sample.flakyChannel (Sample.history 150) in
  let error := Js.JsError "DiscordAPIError" "Service Unavailable" in
  let issued :=
    [FetchOptions.make 100%Q None None; FetchOptions.make 100%Q (Some "51") None] in
  let response :=
    callToolHandler Sample.parseDate Sample.flakyClient
      (advancedRequest Sample.limit101) in
  ensureDiscordReady Sample.flakyClient = Normal tt
  /\ fetchTextChannel Sample.flakyClient (Args.channel_id Sample.limit101)
     = Normal textChannel
  /\ scan (advancedParams Sample.limit101)
       (dateOf Sample.parseDate (Args.start_date Sample.limit101))
       (dateOf Sample.parseDate (Args.end_date Sample.limit101)) textChannel
     = FetchThrew error issued
  /\ response = textResult [Lit "Error: Service Unavailable"]
  /\ messagesOf response = [].
Proof.
  cbv zeta.
  assert (H1 : ensureDiscordReady Sample.flakyClient = Normal tt)
    by reflexivity.
  assert (H2 : fetchTextChannel Sample.flakyClient
                 (Args.channel_id Sample.limit101)
               = Normal (Sample.flakyChannel (Sample.history 150)))
    by reflexivity.
  assert (H3 : scan (advancedParams Sample.limit101)
                 (dateOf Sample.parseDate (Args.start_date Sample.limit101))
                 (dateOf Sample.parseDate (Args.end_date Sample.limit101))
                 (Sample.flakyChannel (Sample.history 150))
               = FetchThrew
                   (Js.JsError "DiscordAPIError" "Service Unavailable")
                   [FetchOptions.make 100%Q None None;
                    FetchOptions.make 100%Q (Some "51") None])
    by (vm_compute; reflexivity).
  pose proof (tool_failures_become_error_text Sample.parseDate
                Sample.flakyClient (advancedRequest Sample.limit101)) as H.
  cbv zeta in H. destruct H as [_ [_ [_ [_ [_ H]]]]].
  destruct (H _ _ _ _ eq_refl H1 H2 H3) as [Hresponse Hnone].
  repeat split; assumption.
Defined.

(* ------------------------------------------------------------------ *)
(** ** A falsy limit *)

(** The handler on a call of the advanced tool. *)
Lemma callToolHandler_advanced
    (parseDate : string -> Js.Date) (client : Client.t) (args : Args.t) :
  callToolHandler parseDate client (advancedRequest args)
  = match getMessagesAdvanced parseDate client (advancedParams args) with
    | Normal result => result
    | Throw error => textResult (errorText error)
    end.
Proof. unfold callToolHandler. now rewrite toolSwitch_advanced. Qed.

(** C10.  A limit of 0 (like an omitted one) is replaced by 50 before the
    scan starts: the dispatcher builds the same parameters, the target is
    50, and the response is the one for limit 50. *)
Theorem zero_limit_means_default
    (parseDate : string -> Js.Date) (client : Client.t) (args : Args.t) :
  let run limit :=
    callToolHandler parseDate client
      (advancedRequest (withLimit limit args)) in
  advancedParams (withLimit (Some 0%Q) args)
  = advancedParams (withLimit (Some 50%Q) args)
  /\ advancedParams (withLimit None args)
     = advancedParams (withLimit (Some 50%Q) args)
  /\ targetLimit (advancedParams (withLimit (Some 0%Q) args)) = 50%Q
  /\ run (Some 0%Q) = run (Some 50%Q)
  /\ run None = run (Some 50%Q).
Proof.
  cbv zeta.
  assert (E0 : advancedParams (withLimit (Some 0%Q) args)
               = advancedParams (withLimit (Some 50%Q) args)) by reflexivity.
  assert (E1 : advancedParams (withLimit None args)
               = advancedParams (withLimit (Some 50%Q) args)) by reflexivity.
  split; [exact E0 | split; [exact E1 | split; [reflexivity |]]].
  rewrite !callToolHandler_advanced, E0, E1. split; reflexivity.
Qed.

(** On the sample history of 150 messages a limit of 0 is answered with
    fifty messages, not with none and not with an error. *)
Example zero_limit_returns_fifty :
  let response :=
    callToolHandler Sample.parseDate Sample.largeClient
      (advancedRequest (withLimit (Some 0%Q) Sample.noArgs)) in
  isErrorResult response = false
  /\ List.length (messagesOf response) = 50%nat.
Proof. cbv zeta. split; vm_compute; reflexivity. Qed.

(* ------------------------------------------------------------------ *)
(** ** The log of fetches *)

Lemma fetchOptionsOf_optionsAt (params : Params.t) (st : ScanState) :
  fetchOptionsOf params st = optionsAt params (lastMessageId st).
Proof. reflexivity. Qed.

(** A walk that is not at its start ends with a fetch. *)
Lemma Walk_WalkedLog (params : Params.t) (textChannel : Channel.t)
    (issued : list FetchOptions.t) (cursor : option string) :
  Walk params textChannel issued cursor ->
  WalkedLog params textChannel issued.
Proof.
  intros [| earlier c r z Hwalk _ _ _]; [now left | right].
  now exists earlier, c.
Qed.

Lemma while_loop_walks
    (params : Params.t) (startDate endDate : option Js.Date)
    (textChannel : Channel.t) (budget : nat) :
  forall st,
    Walk params textChannel (calls st) (lastMessageId st) ->
    WalkedLog params textChannel
      (issuedBy (while_loop params startDate endDate textChannel budget st)).
Proof.
  induction budget as [|budget IH]; intros st Hwalk.
  - rewrite while_loop_spent. simpl. exact (Walk_WalkedLog _ _ _ _ Hwalk).
  - destruct (belowTarget_dec params st) as [Hlt | Hge].
    + rewrite (while_loop_step params startDate endDate textChannel budget st
                 Hlt).
      assert (Hlast : WalkedLog params textChannel
                        (calls st ++ [fetchOptionsOf params st])).
      { right. exists (calls st), (lastMessageId st). now split. }
      destruct (Channel.messages_fetch textChannel (List.length (calls st))
                  (fetchOptionsOf params st)) as [r | e] eqn:Hfetch;
        [| exact Hlast].
      cbv zeta. destruct (valuesOf r) as [|m rest] eqn:Hvalues;
        [exact Hlast |].
      destruct (for_loop params startDate endDate (allMessages st)
                  (sort (m :: rest))) as [acc msg | acc]; [exact Hlast |].
      destruct (List.length (m :: rest) <? 100)%nat eqn:Hsize;
        [exact Hlast |].
      apply Nat.ltb_ge in Hsize. apply IH.
      destruct (lastOf_nonempty (sort (m :: rest))) as [z Hz].
      { intros E. pose proof (sort_length (m :: rest)) as Hl.
        rewrite E in Hl. discriminate. }
      unfold afterBatch. cbn [calls lastMessageId]. rewrite Hz.
      rewrite fetchOptionsOf_optionsAt in *.
      apply (Walk_step params textChannel (calls st) (lastMessageId st) r z);
        [exact Hwalk | exact Hfetch | now rewrite Hvalues
        | now rewrite Hvalues].
    + rewrite (while_loop_stop params startDate endDate textChannel
                 (S budget) st Hge).
      exact (Walk_WalkedLog _ _ _ _ Hwalk).
Qed.

Lemma snoc_cases {A : Type} (l : list A) :
  l = [] \/ exists l' x, l = l' ++ [x].
Proof.
  destruct (rev l) as [|x l'] eqn:E.
  - left. apply (f_equal (@rev A)) in E. now rewrite rev_involutive in E.
  - right. exists (rev l'), x. apply (f_equal (@rev A)) in E.
    now rewrite rev_involutive in E.
Qed.

Lemma Walk_first (params : Params.t) (textChannel : Channel.t)
    (issued : list FetchOptions.t) (cursor : option string) :
  Walk params textChannel issued cursor ->
  forall options later,
    issued ++ [optionsAt params cursor] = options :: later ->
    options = optionsAt params (Params.before params).
Proof.
  induction 1 as [| issued c r z Hwalk IH Hfetch Hfull Hlast];
    intros options later E.
  - simpl in E. now injection E as <- _.
  - destruct (issued ++ [optionsAt params c]) as [|o rest] eqn:Ei.
    + destruct issued; discriminate.
    + simpl in E. injection E as -> _. exact (IH options rest eq_refl).
Qed.

Lemma Walk_shape (params : Params.t) (textChannel : Channel.t)
    (issued : list FetchOptions.t) (cursor : option string) :
  Walk params textChannel issued cursor ->
  Forall (fun o => exists c, o = optionsAt params c) issued.
Proof.
  induction 1 as [| issued c r z Hwalk IH _ _ _]; [constructor |].
  apply Forall_app. split; [exact IH |].
  constructor; [now exists c | constructor].
Qed.

(** Two consecutive fetches of a log: the first delivered a full batch,
    the second was issued at that batch's oldest message. *)
Lemma Walk_pairs (params : Params.t) (textChannel : Channel.t)
    (issued : list FetchOptions.t) (cursor : option string) :
  Walk params textChannel issued cursor ->
  forall earlier options next later,
    issued ++ [optionsAt params cursor]
    = earlier ++ options :: next :: later ->
    exists fetchResult oldest,
      Channel.messages_fetch textChannel (List.length earlier) options
      = Normal fetchResult
      /\ (100 <= List.length (valuesOf fetchResult))%nat
      /\ lastOf (sort (valuesOf fetchResult)) = Some oldest
      /\ next = optionsAt params (Some (Message.id oldest)).
Proof.
  induction 1 as [| issued c r z Hwalk IH Hfetch Hfull Hlast];
    intros earlier options next later E.
  - destruct earlier as [|a [|b earlier]]; discriminate.
  - destruct (snoc_cases later) as [-> | [later' [x ->]]].
    + change (earlier ++ [options; next])
        with (earlier ++ [options] ++ [next]) in E.
      rewrite app_assoc in E. apply app_inj_tail in E.
      destruct E as [E Enext]. apply app_inj_tail in E.
      destruct E as [-> <-]. exists r, z.
      split; [exact Hfetch | split; [exact Hfull | split; [exact Hlast |]]].
      now symmetry.
    + change (earlier ++ options :: next :: later' ++ [x])
        with (earlier ++ (options :: next :: later') ++ [x]) in E.
      rewrite app_assoc in E. apply app_inj_tail in E.
      destruct E as [E _]. exact (IH _ _ _ _ E).
Qed.

Lemma scan_WalkedLog
    (params : Params.t) (startDate endDate : option Js.Date)
    (textChannel : Channel.t) :
  WalkedLog params textChannel
    (issuedBy (scan params startDate endDate textChannel)).
Proof.
  unfold scan. apply while_loop_walks. apply Walk_start.
Qed.

(** X1.  One invocation of the advanced retrieval issues at most ten
    fetches, whatever the query and the history; every one of them asks
    for 100 messages and carries the query's [after] cursor (when truthy)
    unchanged. *)
Theorem advanced_fetches_are_bounded_batches
    (parseDate : string -> Js.Date) (client : Client.t) (params : Params.t) :
  (List.length (advancedFetches parseDate client params) <= 10)%nat
  /\ Forall (fun o => FetchOptions.limit o = 100%Q
                      /\ FetchOptions.after o
                         = Js.truthy (Params.after params))
       (advancedFetches parseDate client params).
Proof.
  split.
  - unfold advancedFetches.
    destruct (ensureDiscordReady client); [| simpl; lia].
    destruct (fetchTextChannel client (Params.channelId params)) as [ch | e];
      [| simpl; lia].
    unfold scan.
    exact (while_loop_fetch_budget params
             (dateOf parseDate (Params.startDate params))
             (dateOf parseDate (Params.endDate params)) ch
             maxIterations (initialState params)).
  - unfold advancedFetches.
    destruct (ensureDiscordReady client); [| constructor].
    destruct (fetchTextChannel client (Params.channelId params)) as [ch | e];
      [| constructor].
    destruct (scan_WalkedLog params
                (dateOf parseDate (Params.startDate params))
                (dateOf parseDate (Params.endDate params)) ch)
      as [-> | [earlier [cursor [-> Hwalk]]]]; [constructor |].
    apply Forall_app. split.
    + eapply Forall_impl; [| exact (Walk_shape _ _ _ _ Hwalk)].
      intros o [c ->]. now split.
    + constructor; [now split | constructor].
Qed.

(** X2.  The fetches of a scan walk the history backward: the first is
    issued at the query's [before] cursor; of two consecutive fetches the
    first delivered a batch of at least 100 messages and the second is
    issued at the identifier of the oldest message of that batch.  So a
    failed fetch, an empty batch or a batch of fewer than 100 messages is
    always the last one. *)
Theorem fetch_log_walks_backward
    (params : Params.t) (startDate endDate : option Js.Date)
    (textChannel : Channel.t) :
  let issued := issuedBy (scan params startDate endDate textChannel) in
  (forall options later,
      issued = options :: later ->
      options = optionsAt params (Params.before params))
  /\ (forall earlier options next later,
         issued = earlier ++ options :: next :: later ->
         exists fetchResult oldest,
           Channel.messages_fetch textChannel (List.length earlier) options
           = Normal fetchResult
           /\ (100 <= List.length (valuesOf fetchResult))%nat
           /\ lastOf (sort (valuesOf fetchResult)) = Some oldest
           /\ next = optionsAt params (Some (Message.id oldest))).
Proof.
  cbv zeta.
  pose proof (scan_WalkedLog params startDate endDate textChannel) as Hlog.
  split.
  - intros options later E.
    destruct Hlog as [Hnil | [earlier [cursor [Hlog Hwalk]]]];
      [rewrite Hnil in E; discriminate |].
    rewrite Hlog in E. exact (Walk_first _ _ _ _ Hwalk options later E).
  - intros earlier options next later E.
    destruct Hlog as [Hnil | [walked [cursor [Hlog Hwalk]]]];
      [rewrite Hnil in E; destruct earlier; discriminate |].
    rewrite Hlog in E. exact (Walk_pairs _ _ _ _ Hwalk _ _ _ _ E).
Qed.

(* ------------------------------------------------------------------ *)
(** ** Where the returned messages come from *)

Lemma Delivered_later (textChannel : Channel.t)
    (issued more : list FetchOptions.t) (m : MessageInfo.t) :
  Delivered textChannel issued m -> Delivered textChannel (issued ++ more) m.
Proof.
  intros [n [o [r [msg [Hn H]]]]]. exists n, o, r, msg.
  split; [| exact H].
  rewrite nth_error_app1; [exact Hn |].
  apply nth_error_Some. now rewrite Hn.
Qed.

Lemma scan_delivered
    (params : Params.t) (startDate endDate : option Js.Date)
    (textChannel : Channel.t) :
  match scan params startDate endDate textChannel with
  | ShortCircuit acc _ issued => Forall (Delivered textChannel issued) acc
  | FetchThrew _ _ => True
  | LoopDone st => Forall (Delivered textChannel (calls st)) (allMessages st)
  end.
Proof.
  unfold scan.
  apply (while_loop_rule params startDate endDate textChannel
           (fun st => Forall (Delivered textChannel (calls st))
                        (allMessages st))
           (fun x => match x with
                     | ShortCircuit acc _ issued =>
                         Forall (Delivered textChannel issued) acc
                     | FetchThrew _ _ => True
                     | LoopDone st =>
                         Forall (Delivered textChannel (calls st))
                           (allMessages st)
                     end)); auto.
  - intros st r Hinv _ _ _. simpl.
    eapply Forall_impl; [| exact Hinv].
    intros m. apply Delivered_later.
  - intros st r Hinv _ Hfetch _.
    destruct (for_loop_kept params startDate endDate (sort (valuesOf r))
                (allMessages st)) as [kept [Hacc [Hsub _]]].
    assert (Hall : Forall (Delivered textChannel
                             (calls st ++ [fetchOptionsOf params st]))
                     (allMessages st ++ map project kept)).
    { apply Forall_app. split.
      - eapply Forall_impl; [| exact Hinv].
        intros m. apply Delivered_later.
      - apply Forall_map. apply Forall_forall. intros msg Hmsg.
        exists (List.length (calls st)), (fetchOptionsOf params st), r, msg.
        split; [| split; [exact Hfetch | split; [| reflexivity]]].
        + rewrite nth_error_app2 by lia. now rewrite Nat.sub_diag.
        + apply sort_In. exact (Subseq_In _ _ _ Hsub Hmsg). }
    destruct (for_loop params startDate endDate (allMessages st)
                (sort (valuesOf r))) as [acc msg | acc];
      simpl in Hacc; subst acc; exact Hall.
Qed.

(** X3.  The advanced retrieval returns nothing of its own making: every
    message object of a successful response is the projection of a message
    that one of the fetches this invocation issued on the channel
    delivered. *)
Theorem advanced_results_were_delivered
    (parseDate : string -> Js.Date) (client : Client.t) (params : Params.t)
    (result : ToolResult.t) :
  getMessagesAdvanced parseDate client params = Normal result ->
  exists textChannel,
    fetchTextChannel client (Params.channelId params) = Normal textChannel
    /\ Forall (Delivered textChannel
                 (advancedFetches parseDate client params))
         (messagesOf result).
Proof.
  intros H.
  destruct (getMessagesAdvanced_Normal _ _ _ _ H) as [ch [Hready [Hch Hexit]]].
  exists ch. split; [exact Hch |].
  unfold advancedFetches. rewrite Hready, Hch.
  pose proof (scan_delivered params
                (dateOf parseDate (Params.startDate params))
                (dateOf parseDate (Params.endDate params)) ch) as Hscan.
  cbv zeta in Hexit.
  destruct Hexit as [[acc [msg [issued [E ->]]]] | [st [summary [E [_ ->]]]]];
    rewrite E in Hscan |- *; simpl.
  - now rewrite messagesOf_shortCircuit.
  - now rewrite messagesOf_advanced.
Qed.

Lemma advanced_results_were_delivered_witness :
  getMessagesAdvanced Sample.parseDate Sample.largeClient
    (advancedParams Sample.limit101)
  = Normal (callToolHandler Sample.parseDate Sample.largeClient
              (advancedRequest Sample.limit101))
  /\ exists textChannel,
       fetchTextChannel Sample.largeClient
         (Params.channelId (advancedParams Sample.limit101))
       = Normal textChannel
       /\ Forall (Delivered textChannel
                    (advancedFetches Sample.parseDate Sample.largeClient
                       (advancedParams Sample.limit101)))
            (messagesOf (callToolHandler Sample.parseDate Sample.largeClient
                           (advancedRequest Sample.limit101))).
Proof.
  split.
  - vm_compute. reflexivity.
  - apply (advanced_results_were_delivered Sample.parseDate
             Sample.largeClient (advancedParams Sample.limit101)).
    vm_compute. reflexivity.
Defined.

(* ------------------------------------------------------------------ *)
(** ** What one batch contributes *)

Lemma passes_of_Satisfies (parseDate : string -> Js.Date) (params : Params.t)
    (msg : Message.t) :
  Satisfies parseDate params (project msg) ->
  passes params (dateOf parseDate (Params.startDate params))
    (dateOf parseDate (Params.endDate params)) msg = true.
Proof.
  intros [Hkw Hau Hatt Hstart Hend]. simpl in *.
  unfold passes. rewrite !andb_true_iff, !negb_true_iff.
  repeat split.
  - unfold olderThan, dateOf.
    destruct (Js.truthy (Params.startDate params)) as [s|] eqn:Es;
      [| reflexivity].
    destruct (parseDate s) as [t|] eqn:Et; simpl; [| reflexivity].
    apply Z.ltb_ge. exact (Hstart s t eq_refl Et).
  - unfold newerThan, dateOf.
    destruct (Js.truthy (Params.endDate params)) as [s|] eqn:Es;
      [| reflexivity].
    destruct (parseDate s) as [t|] eqn:Et; simpl; [| reflexivity].
    apply Z.ltb_ge. exact (Hend s t eq_refl Et).
  - unfold keywordFails.
    destruct (Js.truthy (Params.keyword params)) as [kw|] eqn:Ek;
      [| reflexivity].
    apply truthy_Some in Ek. destruct Ek as [Ek _].
    apply negb_false_iff, includes_iff. exact (Hkw kw Ek).
  - unfold authorFails.
    destruct (Js.truthy (Params.author params)) as [a|] eqn:Ea;
      [| reflexivity].
    apply negb_false_iff, orb_true_iff.
    destruct (Hau a eq_refl) as [H | H]; [left | right];
      now apply String.eqb_eq.
  - unfold attachmentFails.
    destruct (Params.hasAttachments params) as [[|]|] eqn:Eh;
      simpl; try reflexivity.
    specialize (Hatt eq_refl).
    destruct (Message.attachments msg); [now elim Hatt | reflexivity].
Qed.

(** X4.  The five tests of the loop body are exact: a message passes them
    if and only if its projection satisfies every filter of the query that
    is in force. *)
Theorem filter_tests_are_exact
    (parseDate : string -> Js.Date) (params : Params.t) (msg : Message.t) :
  passes params (dateOf parseDate (Params.startDate params))
    (dateOf parseDate (Params.endDate params)) msg = true
  <-> Satisfies parseDate params (project msg).
Proof.
  split; [apply passes_Satisfies | apply passes_of_Satisfies].
Qed.

(** Without the start-date [return], the loop pushes the messages of the
    batch that pass the tests, in order, until the target is reached. *)
Lemma for_loop_filter (params : Params.t) (startDate endDate : option Js.Date)
    (batch : list Message.t) :
  Forall (fun m => olderThan m startDate = false) batch ->
  forall acc,
    Z.of_nat (List.length acc) < wholeTarget params ->
    for_loop params startDate endDate acc batch
    = Completed
        (acc ++ firstn (Z.to_nat (wholeTarget params) - List.length acc)
                  (map project
                     (filter (passes params startDate endDate) batch))).
Proof.
  induction 1 as [|msg rest Hold _ IH]; intros acc Hacc.
  - simpl. rewrite firstn_nil, app_nil_r. reflexivity.
  - cbn [for_loop filter]. unfold passes at 1. rewrite Hold. cbn [negb andb].
    destruct (newerThan msg endDate); [now apply IH |].
    destruct (keywordFails params msg); [now apply IH |].
    destruct (authorFails params msg); [now apply IH |].
    destruct (attachmentFails params msg); [now apply IH |].
    cbn [negb andb map].
    assert (Hroom : (Z.to_nat (wholeTarget params) - List.length acc
                     = S (Z.to_nat (wholeTarget params)
                          - List.length (acc ++ [project msg])))%nat)
      by (rewrite length_app; simpl; lia).
    rewrite Hroom. cbn [firstn].
    destruct (Js.ge (Js.ofNat (List.length (acc ++ [project msg])))
                (targetLimit params)) eqn:E.
    + apply ge_true_iff in E. fold (wholeTarget params) in E.
      replace (Z.to_nat (wholeTarget params)
               - List.length (acc ++ [project msg]))%nat with 0%nat by lia.
      reflexivity.
    + apply ge_false_iff in E. rewrite (IH (acc ++ [project msg]) E).
      now rewrite <- app_assoc.
Qed.

(** The first iteration of the scan. *)
Lemma scan_first_step
    (params : Params.t) (startDate endDate : option Js.Date)
    (textChannel : Channel.t) :
  0 < wholeTarget params ->
  scan params startDate endDate textChannel
  = match Channel.messages_fetch textChannel 0%nat
            (optionsAt params (Params.before params)) with
    | Throw e => FetchThrew e [optionsAt params (Params.before params)]
    | Normal fetchResult =>
        match valuesOf fetchResult with
        | [] => LoopDone (afterEmpty params (initialState params))
        | _ :: _ =>
            match for_loop params startDate endDate []
                    (sort (valuesOf fetchResult)) with
            | Returned acc msg =>
                ShortCircuit acc msg [optionsAt params (Params.before params)]
            | Completed acc =>
                if (List.length (valuesOf fetchResult) <? 100)%nat
                then LoopDone (afterBatch params (initialState params)
                                 (valuesOf fetchResult) acc)
                else while_loop params startDate endDate textChannel 9
                       (afterBatch params (initialState params)
                          (valuesOf fetchResult) acc)
            end
        end
    end.
Proof.
  intros Htarget. unfold scan.
  apply (while_loop_step params startDate endDate textChannel 9
           (initialState params)).
  apply belowTarget_iff. exact Htarget.
Qed.

(** A scan whose first batch is short, or holds enough matches to fill
    the target, and holds nothing older than the start date ends after
    that batch, on the final [return]. *)
Lemma single_batch_scan
    (params : Params.t) (startDate endDate : option Js.Date)
    (textChannel : Channel.t) (fetchResult : FetchResult) :
  Channel.messages_fetch textChannel 0%nat
    (optionsAt params (Params.before params)) = Normal fetchResult ->
  (List.length (valuesOf fetchResult) < 100)%nat
  \/ (Z.to_nat (wholeTarget params)
      <= List.length (filter (passes params startDate endDate)
                        (sort (valuesOf fetchResult))))%nat ->
  Forall (fun m => olderThan m startDate = false) (valuesOf fetchResult) ->
  exists st,
    scan params startDate endDate textChannel = LoopDone st
    /\ (List.length (calls st) <= 1)%nat
    /\ allMessages st
       = firstn (Z.to_nat (wholeTarget params))
           (map project
              (filter (passes params startDate endDate)
                 (sort (valuesOf fetchResult)))).
Proof.
  intros Hfetch Hone Hnew.
  destruct (Z_lt_dec 0 (wholeTarget params)) as [Hpos | Hneg].
  - rewrite (scan_first_step params startDate endDate textChannel Hpos).
    rewrite Hfetch.
    destruct (valuesOf fetchResult) as [|m rest] eqn:Hvalues.
    + eexists. split; [reflexivity |]. simpl.
      split; [lia | now rewrite firstn_nil].
    + rewrite (for_loop_filter params startDate endDate (sort (m :: rest))
                 (sort_Forall _ _ Hnew) [] Hpos).
      cbn [app]. change (List.length (@nil MessageInfo.t)) with 0%nat.
      rewrite Nat.sub_0_r.
      destruct (List.length (m :: rest) <? 100)%nat eqn:Hsize.
      * eexists. split; [reflexivity |]. simpl. split; [lia | reflexivity].
      * apply Nat.ltb_ge in Hsize.
        destruct Hone as [Hshort | Hfull]; [lia |].
        exists (afterBatch params (initialState params) (m :: rest)
                  (firstn (Z.to_nat (wholeTarget params))
                     (map project
                        (filter (passes params startDate endDate)
                           (sort (m :: rest)))))).
        split; [| split; [simpl; lia | reflexivity]].
        apply while_loop_stop. rewrite belowTarget_iff. unfold afterBatch.
        cbn [allMessages]. rewrite length_firstn, length_map. lia.
  - exists (initialState params). split; [| split].
    + unfold scan. apply while_loop_stop. rewrite belowTarget_iff.
      simpl. lia.
    + simpl. lia.
    + simpl. replace (Z.to_nat (wholeTarget params)) with 0%nat by lia.
      reflexivity.
Qed.

(** X5.  When the first fetch delivers fewer than 100 messages, or enough
    matching messages to fill the target, and none older than the start
    date, a successful advanced retrieval issues no second fetch and
    returns exactly the messages of that batch that pass the filters,
    newest first, cut off at the target count (rounded up when it is not
    a whole number). *)
Theorem single_batch_is_filtered
    (parseDate : string -> Js.Date) (client : Client.t) (params : Params.t)
    (textChannel : Channel.t) (fetchResult : FetchResult)
    (result : ToolResult.t) :
  let startDate := dateOf parseDate (Params.startDate params) in
  let endDate := dateOf parseDate (Params.endDate params) in
  fetchTextChannel client (Params.channelId params) = Normal textChannel ->
  Channel.messages_fetch textChannel 0%nat
    (optionsAt params (Params.before params)) = Normal fetchResult ->
  (List.length (valuesOf fetchResult) < 100)%nat
  \/ (Z.to_nat (wholeTarget params)
      <= List.length (filter (passes params startDate endDate)
                        (sort (valuesOf fetchResult))))%nat ->
  Forall (fun m => olderThan m startDate = false) (valuesOf fetchResult) ->
  getMessagesAdvanced parseDate client params = Normal result ->
  messagesOf result
  = firstn (Z.to_nat (wholeTarget params))
      (map project
         (filter (passes params startDate endDate)
            (sort (valuesOf fetchResult))))
  /\ (List.length (advancedFetches parseDate client params) <= 1)%nat.
Proof.
  intros startDate endDate Hch Hfetch Hone Hnew H.
  destruct (getMessagesAdvanced_Normal _ _ _ _ H)
    as [ch [Hready [Hch' Hexit]]].
  rewrite Hch in Hch'. injection Hch' as <-. cbv zeta in Hexit.
  destruct (single_batch_scan params startDate endDate textChannel
              fetchResult Hfetch Hone Hnew) as [st [Hscan [Hcalls Hacc]]].
  unfold advancedFetches. rewrite Hready, Hch.
  unfold startDate, endDate in Hscan. rewrite Hscan in Hexit |- *.
  destruct Hexit as [[acc [msg [issued [E _]]]] | [st' [summary [E [_ ->]]]]];
    [discriminate |].
  injection E as <-. rewrite messagesOf_advanced.
  split; [exact Hacc | exact Hcalls].
Qed.

Lemma single_batch_is_filtered_witness :
  let params := advancedParams Sample.twoErrors in
  let response :=
    callToolHandler Sample.parseDate Sample.smallClient
      (advancedRequest Sample.twoErrors) in
  getMessagesAdvanced Sample.parseDate Sample.smallClient params
  = Normal response
  /\ messagesOf response
     = [project (Sample.message 24); project (Sample.message 21)].
Proof.
  cbv zeta.
  assert (H : getMessagesAdvanced Sample.parseDate Sample.smallClient
                (advancedParams Sample.twoErrors)
              = Normal (callToolHandler Sample.parseDate Sample.smallClient
                          (advancedRequest Sample.twoErrors)))
    by (vm_compute; reflexivity).
  split; [exact H |].
  pose proof (single_batch_is_filtered Sample.parseDate Sample.smallClient
                (advancedParams Sample.twoErrors)
                (Sample.channel (Sample.history 24))
                (Collection (Sample.history 24))
                (callToolHandler Sample.parseDate Sample.smallClient
                   (advancedRequest Sample.twoErrors))
                eq_refl eq_refl) as Hx.
  cbv zeta in Hx.
  destruct Hx as [Hx _];
    [ left; vm_compute; lia
    | apply Forall_forall; intros m _; reflexivity
    | exact H
    | ].
  rewrite Hx. vm_compute. reflexivity.
Defined.

(* ------------------------------------------------------------------ *)
(** ** The summary *)

Lemma Subseq_length {A : Type} (k l : list A) :
  Subseq k l -> (List.length k <= List.length l)%nat.
Proof. induction 1; simpl; lia. Qed.

(** Between iterations no more messages are accumulated than fetched. *)
Lemma scan_fetched_covers_matches
    (params : Params.t) (startDate endDate : option Js.Date)
    (textChannel : Channel.t) :
  match scan params startDate endDate textChannel with
  | LoopDone st => (List.length (allMessages st) <= totalFetched st)%nat
  | _ => True
  end.
Proof.
  unfold scan.
  apply (while_loop_rule params startDate endDate textChannel
           (fun st => (List.length (allMessages st) <= totalFetched st)%nat)
           (fun x => match x with
                     | LoopDone st =>
                         (List.length (allMessages st) <= totalFetched st)%nat
                     | _ => True
                     end)); auto.
  intros st r Hinv _ _ _.
  destruct (for_loop_kept params startDate endDate (sort (valuesOf r))
              (allMessages st)) as [kept [Hacc [Hsub _]]].
  apply Subseq_length in Hsub. rewrite sort_length in Hsub.
  destruct (for_loop params startDate endDate (allMessages st)
              (sort (valuesOf r))) as [acc msg | acc]; [exact I |].
  simpl in Hacc. subst acc. simpl.
  rewrite length_app, length_map. lia.
Qed.

(** X6.  A summary in a response of the advanced retrieval is consistent
    with the response and the query: its total is the number of messages
    in the array and is at most the number of messages fetched; it echoes
    the truthy keyword, author and cursors (["none"], ["any"] otherwise)
    and reports no date range exactly when no date is supplied. *)
Theorem summary_is_consistent
    (parseDate : string -> Js.Date) (client : Client.t) (params : Params.t)
    (result : ToolResult.t) (summary : Summary.t) :
  getMessagesAdvanced parseDate client params = Normal result ->
  In summary (summariesOf result) ->
  Summary.total summary = List.length (messagesOf result)
  /\ (Summary.total summary
      <= Summary.totalFetched (Summary.pagination summary))%nat
  /\ Summary.keyword (Summary.filters summary)
     = Js.orElse (Params.keyword params) "none"
  /\ Summary.author (Summary.filters summary)
     = Js.orElse (Params.author params) "any"
  /\ Summary.before (Summary.pagination summary)
     = Js.orElse (Params.before params) "none"
  /\ Summary.after (Summary.pagination summary)
     = Js.orElse (Params.after params) "none"
  /\ (Summary.dateRange (Summary.filters summary) = NoRange
      <-> Js.truthy (Params.startDate params) = None
          /\ Js.truthy (Params.endDate params) = None).
Proof.
  intros H Hin.
  destruct (getMessagesAdvanced_Normal _ _ _ _ H) as [ch [_ [_ Hexit]]].
  cbv zeta in Hexit.
  pose proof (scan_fetched_covers_matches params
                (dateOf parseDate (Params.startDate params))
                (dateOf parseDate (Params.endDate params)) ch) as Hcover.
  destruct Hexit as [[acc [msg [issued [_ ->]]]] | [st [s [E [Hs ->]]]]];
    [contradiction |].
  rewrite E in Hcover. rewrite messagesOf_advanced.
  destruct Hin as [<- | []].
  unfold summaryOf in Hs.
  destruct (dateRangeOf (dateOf parseDate (Params.startDate params))
              (dateOf parseDate (Params.endDate params)))
    as [range | e] eqn:Hrange; [| discriminate].
  rewrite bind_Normal in Hs. injection Hs as <-. simpl.
  repeat (split; [first [reflexivity | exact Hcover] |]).
  unfold dateRangeOf, dateOf, isoOrAny, toISOString in Hrange.
  destruct (Js.truthy (Params.startDate params)) as [a|];
    destruct (Js.truthy (Params.endDate params)) as [b|];
    try destruct (parseDate a); try destruct (parseDate b);
    simpl in Hrange; try discriminate; injection Hrange as <-;
    split; try discriminate; try (intros [? ?]; discriminate);
    try (intros _; split; reflexivity); reflexivity.
Qed.

Lemma summary_is_consistent_witness :
  let response :=
    callToolHandler Sample.parseDate Sample.smallClient
      (advancedRequest Sample.twoErrors) in
  getMessagesAdvanced Sample.parseDate Sample.smallClient
    (advancedParams Sample.twoErrors) = Normal response
  /\ map Summary.total (summariesOf response) = [2%nat]
  /\ Forall (fun s =>
               Summary.total s = List.length (messagesOf response)
               /\ Summary.keyword (Summary.filters s) = "Error")
       (summariesOf response).
Proof.
  cbv zeta.
  assert (H : getMessagesAdvanced Sample.parseDate Sample.smallClient
                (advancedParams Sample.twoErrors)
              = Normal (callToolHandler Sample.parseDate Sample.smallClient
                          (advancedRequest Sample.twoErrors)))
    by (vm_compute; reflexivity).
  split; [exact H | split; [vm_compute; reflexivity |]].
  apply Forall_forall. intros s Hs.
  destruct (summary_is_consistent Sample.parseDate Sample.smallClient
              (advancedParams Sample.twoErrors) _ s H Hs)
    as [Htotal [_ [Hkw _]]].
  split; [exact Htotal | exact Hkw].
Defined.

(* ------------------------------------------------------------------ *)
(** ** Dates that do not parse, again *)

(** X7.  A date string that the runtime does not parse never yields a
    summary: with such a start date the advanced retrieval always throws;
    with such an end date it can complete only through the [return] of the
    start-date test; and whenever the loop runs to its end the method
    throws the [RangeError] of [toISOString]. *)
Theorem unparseable_date_is_never_summarised
    (parseDate : string -> Js.Date) (client : Client.t) (params : Params.t)
    (s : string) :
  parseDate s = None ->
  (Js.truthy (Params.startDate params) = Some s ->
   exists error, getMessagesAdvanced parseDate client params = Throw error)
  /\ (Js.truthy (Params.endDate params) = Some s ->
      forall result,
        getMessagesAdvanced parseDate client params = Normal result ->
        exists acc, result = textResult (shortCircuitText acc))
  /\ (Js.truthy (Params.startDate params) = Some s
      \/ Js.truthy (Params.endDate params) = Some s ->
      forall textChannel st,
        ensureDiscordReady client = Normal tt ->
        fetchTextChannel client (Params.channelId params)
        = Normal textChannel ->
        scan params (dateOf parseDate (Params.startDate params))
          (dateOf parseDate (Params.endDate params)) textChannel
        = LoopDone st ->
        getMessagesAdvanced parseDate client params
        = Throw (Js.JsError "RangeError" "Invalid time value")).
Proof.
  intros Hparse.
  assert (Hstart : Js.truthy (Params.startDate params) = Some s ->
                   dateOf parseDate (Params.startDate params) = Some None)
    by (intros E; unfold dateOf; now rewrite E, Hparse).
  assert (Hend : Js.truthy (Params.endDate params) = Some s ->
                 dateOf parseDate (Params.endDate params) = Some None)
    by (intros E; unfold dateOf; now rewrite E, Hparse).
  split; [| split].
  - intros E. exact (unparseable_start_date_throws parseDate client params s
                       E Hparse).
  - intros E result H.
    destruct (getMessagesAdvanced_Normal _ _ _ _ H) as [ch [_ [_ Hexit]]].
    cbv zeta in Hexit.
    destruct Hexit as [[acc [msg [issued [_ ->]]]] | [st [summary [_ [Hs _]]]]];
      [now exists acc |].
    rewrite summaryOf_invalid in Hs; [discriminate | right; now apply Hend].
  - intros E textChannel st Hready Hch Hscan.
    unfold getMessagesAdvanced. rewrite Hready, Hch, !bind_Normal.
    cbv zeta. rewrite Hscan.
    rewrite summaryOf_invalid; [reflexivity |].
    destruct E as [E | E]; [left; now apply Hstart | right; now apply Hend].
Qed.

Lemma unparseable_date_is_never_summarised_witness :
  Sample.parseDate "yesterday" = None
  /\ Js.truthy (Params.startDate (advancedParams Sample.sinceYesterday))
     = Some "yesterday"
  /\ exists error,
       getMessagesAdvanced Sample.parseDate Sample.smallClient
         (advancedParams Sample.sinceYesterday) = Throw error.
Proof.
  split; [reflexivity | split; [reflexivity |]].
  exact (proj1 (unparseable_date_is_never_summarised Sample.parseDate
                  Sample.smallClient (advancedParams Sample.sinceYesterday)
                  "yesterday" eq_refl) eq_refl).
Defined.

(** The loop with the Invalid Dates left out is the same loop. *)
Lemma while_loop_invalid_dates
    (params : Params.t) (startDate endDate : option Js.Date)
    (textChannel : Channel.t) (budget : nat) :
  forall st,
    while_loop params (validOnly startDate) (validOnly endDate) textChannel
      budget st
    = while_loop params startDate endDate textChannel budget st.
Proof.
  induction budget as [|budget IH]; intros st.
  - now rewrite !while_loop_spent.
  - destruct (belowTarget_dec params st) as [Hlt | Hge].
    + rewrite !(while_loop_step params _ _ textChannel budget st Hlt).
      destruct (Channel.messages_fetch textChannel (List.length (calls st))
                  (fetchOptionsOf params st)) as [r | e]; [| reflexivity].
      cbv zeta. destruct (valuesOf r) as [|m rest]; [reflexivity |].
      unfold validOnly. rewrite for_loop_invalid_dates.
      destruct (for_loop params startDate endDate (allMessages st)
                  (sort (m :: rest))) as [acc msg | acc]; [reflexivity |].
      destruct (List.length (m :: rest) <? 100)%nat; [reflexivity |].
      apply IH.
    + now rewrite !(while_loop_stop params _ _ textChannel (S budget) st Hge).
Qed.

(** X8.  A date that does not parse filters nothing: the scan fetches,
    accumulates and ends exactly as the scan of the same query without
    that date. *)
Theorem unparseable_date_does_not_filter
    (params : Params.t) (startDate endDate : option Js.Date)
    (textChannel : Channel.t) :
  scan params (validOnly startDate) (validOnly endDate) textChannel
  = scan params startDate endDate textChannel.
Proof. unfold scan. apply while_loop_invalid_dates. Qed.

(* ------------------------------------------------------------------ *)
(** ** Queries that scan alike *)

Section Alike.

Variables p p' : Params.t.
Variables sd ed sd' ed' : option Js.Date.
Variable textChannel : Channel.t.
Hypothesis Hsame : SameTests p sd ed p' sd' ed'.

Lemma for_loop_alike (batch : list Message.t) :
  forall acc,
    for_loop p sd ed acc batch = for_loop p' sd' ed' acc batch.
Proof.
  destruct Hsame as [Htarget [_ Htests]].
  induction batch as [|msg rest IH]; intros acc; [reflexivity |].
  cbn [for_loop].
  destruct (Htests msg) as [-> [-> [-> [-> ->]]]]. rewrite Htarget.
  destruct (olderThan msg sd'); [reflexivity |].
  destruct (newerThan msg ed'); [apply IH |].
  destruct (keywordFails p' msg); [apply IH |].
  destruct (authorFails p' msg); [apply IH |].
  destruct (attachmentFails p' msg); [apply IH |].
  destruct (Js.ge (Js.ofNat (List.length (acc ++ [project msg])))
                (targetLimit p'));
    [reflexivity | apply IH].
Qed.

Lemma fetchOptionsOf_alike (st st' : ScanState) :
  SameState st st' -> fetchOptionsOf p st = fetchOptionsOf p' st'.
Proof.
  intros [_ [Hcursor _]]. destruct Hsame as [_ [Hafter _]].
  unfold fetchOptionsOf. now rewrite Hcursor, Hafter.
Qed.

Lemma while_loop_alike (budget : nat) :
  forall st st',
    SameState st st' ->
    SameExit (while_loop p sd ed textChannel budget st)
      (while_loop p' sd' ed' textChannel budget st').
Proof.
  induction budget as [|budget IH]; intros st st' Hst.
  - rewrite !while_loop_spent. exact Hst.
  - pose proof (fetchOptionsOf_alike st st' Hst) as Hopts.
    destruct Hst as [Hacc [Hcursor [Htotal [Hiter Hcalls]]]].
    assert (Hst : SameState st st') by (repeat split; assumption).
    destruct Hsame as [Htarget _].
    destruct (belowTarget_dec p st) as [Hlt | Hge].
    + assert (Hlt' : belowTarget p' st')
        by (unfold belowTarget; rewrite <- Hacc, <- Htarget; exact Hlt).
      rewrite (while_loop_step p sd ed textChannel budget st Hlt).
      rewrite (while_loop_step p' sd' ed' textChannel budget st' Hlt').
      rewrite <- Hopts, <- Hcalls.
      destruct (Channel.messages_fetch textChannel (List.length (calls st))
                  (fetchOptionsOf p st)) as [r | e]; [| now split].
      cbv zeta. destruct (valuesOf r) as [|m rest].
      * unfold afterEmpty, SameExit, SameState.
        cbn [allMessages lastMessageId totalFetched iterations calls].
        rewrite <- Hopts, <- Hcalls, <- Htotal, <- Hiter, <- Hacc.
        repeat split. exact Hcursor.
      * rewrite <- Hacc, for_loop_alike.
        destruct (for_loop p' sd' ed' (allMessages st) (sort (m :: rest)))
          as [acc msg | acc]; [now repeat split |].
        assert (Hnext : SameState (afterBatch p st (m :: rest) acc)
                          (afterBatch p' st' (m :: rest) acc)).
        { unfold afterBatch, SameState.
          cbn [allMessages lastMessageId totalFetched iterations calls].
          rewrite <- Hopts, <- Hcalls, <- Htotal, <- Hiter.
          repeat split.
          destruct (lastOf (sort (m :: rest))); [reflexivity | exact Hcursor]. }
        destruct (List.length (m :: rest) <? 100)%nat;
          [exact Hnext | now apply IH].
    + assert (Hge' : ~ belowTarget p' st')
        by (unfold belowTarget; rewrite <- Hacc, <- Htarget; exact Hge).
      rewrite (while_loop_stop p sd ed textChannel (S budget) st Hge).
      rewrite (while_loop_stop p' sd' ed' textChannel (S budget) st' Hge').
      exact Hst.
Qed.

End Alike.

Lemma scan_alike (p p' : Params.t) (sd ed sd' ed' : option Js.Date)
    (textChannel : Channel.t) :
  SameTests p sd ed p' sd' ed' ->
  Js.truthy (Params.before p) = Js.truthy (Params.before p') ->
  SameExit (scan p sd ed textChannel) (scan p' sd' ed' textChannel).
Proof.
  intros Hsame Hbefore. unfold scan.
  apply while_loop_alike; [exact Hsame |].
  repeat split; simpl; try reflexivity. exact Hbefore.
Qed.

Lemma truthy_truthy (x : option string) : Js.truthy (Js.truthy x) = Js.truthy x.
Proof. destruct x as [[|c s]|]; reflexivity. Qed.

Lemma orElse_truthy (x : option string) (d : string) :
  Js.orElse (Js.truthy x) d = Js.orElse x d.
Proof. unfold Js.orElse. now rewrite truthy_truthy. Qed.

Lemma SameTests_withoutFalsy (parseDate : string -> Js.Date)
    (params : Params.t) :
  SameTests (withoutFalsy params)
    (dateOf parseDate (Params.startDate (withoutFalsy params)))
    (dateOf parseDate (Params.endDate (withoutFalsy params)))
    params
    (dateOf parseDate (Params.startDate params))
    (dateOf parseDate (Params.endDate params)).
Proof.
  split; [reflexivity | split; [apply truthy_truthy |]].
  intros m. unfold dateOf, keywordFails, authorFails, attachmentFails.
  simpl. rewrite !truthy_truthy.
  repeat split.
  destruct (Js.boolOr (Params.hasAttachments params)); reflexivity.
Qed.

(** X9.  An empty string for [before], [after], [start_date], [end_date],
    [keyword] or [author], and [false] for [has_attachments], are the same
    as leaving the argument out: the advanced retrieval completes with the
    same result, or throws the same value. *)
Theorem falsy_arguments_are_omitted
    (parseDate : string -> Js.Date) (client : Client.t) (params : Params.t) :
  getMessagesAdvanced parseDate client (withoutFalsy params)
  = getMessagesAdvanced parseDate client params.
Proof.
  unfold getMessagesAdvanced.
  change (Params.channelId (withoutFalsy params))
    with (Params.channelId params).
  destruct (ensureDiscordReady client) as [[] | e]; [| reflexivity].
  rewrite !bind_Normal.
  destruct (fetchTextChannel client (Params.channelId params)) as [ch | e];
    [| reflexivity].
  rewrite !bind_Normal. cbv zeta.
  pose proof (scan_alike _ _ _ _ _ _ ch
                (SameTests_withoutFalsy parseDate params)
                (truthy_truthy (Params.before params))) as Halike.
  assert (Hdates :
            dateOf parseDate (Params.startDate (withoutFalsy params))
            = dateOf parseDate (Params.startDate params)
            /\ dateOf parseDate (Params.endDate (withoutFalsy params))
               = dateOf parseDate (Params.endDate params)).
  { unfold dateOf. simpl. now rewrite !truthy_truthy. }
  destruct Hdates as [Hsd Hed].
  revert Halike.
  generalize (scan (withoutFalsy params)
                (dateOf parseDate (Params.startDate (withoutFalsy params)))
                (dateOf parseDate (Params.endDate (withoutFalsy params))) ch).
  generalize (scan params (dateOf parseDate (Params.startDate params))
                (dateOf parseDate (Params.endDate params)) ch).
  intros x' x Halike.
  destruct x as [acc msg issued | e issued | st];
    destruct x' as [acc' msg' issued' | e' issued' | st'];
    simpl in Halike; try contradiction.
  - destruct Halike as [-> _]. reflexivity.
  - destruct Halike as [-> _]. reflexivity.
  - destruct Halike as [Hacc [_ [Htotal _]]].
    rewrite Hsd, Hed. unfold summaryOf.
    destruct (dateRangeOf (dateOf parseDate (Params.startDate params))
                (dateOf parseDate (Params.endDate params)))
      as [range | e]; [| reflexivity].
    rewrite !bind_Normal. simpl. rewrite !orElse_truthy, Hacc, Htotal.
    destruct (Js.boolOr (Params.hasAttachments params)); reflexivity.
Qed.

(** With empty strings in every optional argument the sample channel is
    answered as with no optional argument at all. *)
Example empty_strings_are_no_arguments :
  callToolHandler Sample.parseDate Sample.smallClient
    (advancedRequest Sample.emptyStrings)
  = callToolHandler Sample.parseDate Sample.smallClient
      (advancedRequest Sample.noArgs).
Proof. vm_compute. reflexivity. Qed.

Lemma toLowerCase_empty (s : string) :
  Js.toLowerCase s = EmptyString -> s = EmptyString.
Proof. destruct s; [reflexivity | discriminate]. Qed.

Lemma SameTests_keyword_case (params : Params.t)
    (sd ed : option Js.Date) (kw kw' : string) :
  Js.toLowerCase kw = Js.toLowerCase kw' ->
  SameTests (withKeyword (Some kw) params) sd ed
    (withKeyword (Some kw') params) sd ed.
Proof.
  intros Hcase. split; [reflexivity | split; [reflexivity |]].
  intros m. repeat split.
  unfold keywordFails. simpl.
  destruct kw as [|c kw].
  - symmetry in Hcase. apply toLowerCase_empty in Hcase. now subst kw'.
  - destruct kw' as [|c' kw']; [discriminate |]. now rewrite Hcase.
Qed.

(** X10.  The keyword is matched without regard to its case: two
    keywords that differ only in case make the advanced retrieval succeed
    on the same histories and return the same messages. *)
Theorem keyword_case_is_ignored
    (parseDate : string -> Js.Date) (client : Client.t) (params : Params.t)
    (kw kw' : string) (result : ToolResult.t) :
  Js.toLowerCase kw = Js.toLowerCase kw' ->
  getMessagesAdvanced parseDate client (withKeyword (Some kw) params)
  = Normal result ->
  exists result',
    getMessagesAdvanced parseDate client (withKeyword (Some kw') params)
    = Normal result'
    /\ messagesOf result' = messagesOf result.
Proof.
  intros Hcase H.
  destruct (getMessagesAdvanced_Normal _ _ _ _ H)
    as [ch [Hready [Hch Hexit]]].
  cbv zeta in Hexit. simpl in Hch.
  pose proof (scan_alike _ _ _ _ _ _ ch
                (SameTests_keyword_case params
                   (dateOf parseDate (Params.startDate params))
                   (dateOf parseDate (Params.endDate params)) kw kw' Hcase)
                eq_refl) as Halike.
  unfold getMessagesAdvanced.
  change (Params.channelId (withKeyword (Some kw') params))
    with (Params.channelId params).
  rewrite Hready, Hch, !bind_Normal. cbv zeta.
  change (Params.startDate (withKeyword (Some kw') params))
    with (Params.startDate params).
  change (Params.endDate (withKeyword (Some kw') params))
    with (Params.endDate params).
  change (Params.startDate (withKeyword (Some kw) params))
    with (Params.startDate params) in Hexit.
  change (Params.endDate (withKeyword (Some kw) params))
    with (Params.endDate params) in Hexit.
  revert Halike Hexit.
  generalize (scan (withKeyword (Some kw) params)
                (dateOf parseDate (Params.startDate params))
                (dateOf parseDate (Params.endDate params)) ch).
  generalize (scan (withKeyword (Some kw') params)
                (dateOf parseDate (Params.startDate params))
                (dateOf parseDate (Params.endDate params)) ch).
  intros x' x Halike Hexit.
  destruct Hexit as [[acc [msg [issued [-> ->]]]] | [st [summary [-> [Hs ->]]]]];
    destruct x' as [acc' msg' issued' | e' issued' | st'];
    simpl in Halike; try contradiction.
  - destruct Halike as [-> _]. eexists. split; [reflexivity |].
    now rewrite !messagesOf_shortCircuit.
  - destruct Halike as [Hacc _]. unfold summaryOf in *.
    destruct (dateRangeOf (dateOf parseDate (Params.startDate params))
                (dateOf parseDate (Params.endDate params)))
      as [range | e]; [| discriminate].
    rewrite bind_Normal. eexists. split; [reflexivity |].
    now rewrite !messagesOf_advanced.
Qed.

Lemma keyword_case_is_ignored_witness :
  let upper := advancedParams Sample.shouting in
  Js.toLowerCase "ERROR" = Js.toLowerCase "Error"
  /\ getMessagesAdvanced Sample.parseDate Sample.smallClient
       (withKeyword (Some "ERROR") upper)
     = Normal (callToolHandler Sample.parseDate Sample.smallClient
                 (advancedRequest Sample.shouting))
  /\ exists result',
       getMessagesAdvanced Sample.parseDate Sample.smallClient
         (withKeyword (Some "Error") upper) = Normal result'
       /\ messagesOf result'
          = messagesOf (callToolHandler Sample.parseDate Sample.smallClient
                          (advancedRequest Sample.shouting)).
Proof.
  cbv zeta. split; [reflexivity | split; [vm_compute; reflexivity |]].
  apply (keyword_case_is_ignored Sample.parseDate Sample.smallClient
           (advancedParams Sample.shouting) "ERROR" "Error");
    [reflexivity | vm_compute; reflexivity].
Defined.

(* ------------------------------------------------------------------ *)
(** ** The plain retrieval of images *)

Lemma imagesOf_urls (msg : Message.t) :
  map ImageInfo.url (imagesOf msg)
  = map Attachment.url (filter isImage (Message.attachments msg)).
Proof.
  unfold imagesOf.
  induction (Message.attachments msg) as [|att rest IH]; [reflexivity |].
  cbn [flat_map filter]. unfold isImage at 1.
  destruct (Attachment.contentType att) as [ct|]; [| exact IH].
  destruct (Js.startsWith ct "image/"); [| exact IH].
  rewrite map_app, IH. reflexivity.
Qed.

Lemma imagesOf_are_images (msg : Message.t) :
  Forall (fun i => Js.startsWith (ImageInfo.contentType i) "image/" = true
                   /\ ImageInfo.messageId i = Message.id msg)
    (imagesOf msg).
Proof.
  unfold imagesOf.
  induction (Message.attachments msg) as [|att rest IH]; [constructor |].
  cbn [flat_map].
  destruct (Attachment.contentType att) as [ct|]; [| exact IH].
  destruct (Js.startsWith ct "image/") eqn:E; [| exact IH].
  constructor; [now split | exact IH].
Qed.

(** X11.  A successful [discord_get_images] lists exactly the attachments
    of the fetched messages whose content type starts with ["image/"], in
    the order of the collection (an attachment without content type is
    never listed), each under the identifier of one of the fetched
    messages, and prints their number. *)
Theorem getImages_lists_the_image_attachments
    (client : Client.t) (channelId : option string) (limit : Js.Number)
    (result : ToolResult.t) :
  getImages client channelId limit = Normal result ->
  exists textChannel messages,
    fetchTextChannel client channelId = Normal textChannel
    /\ Channel.messages_fetch textChannel 0%nat
         (FetchOptions.make limit None None) = Normal (Collection messages)
    /\ map ImageInfo.url (imageDataOf result)
       = map Attachment.url
           (filter isImage (flat_map Message.attachments messages))
    /\ Forall (fun i =>
                 Js.startsWith (ImageInfo.contentType i) "image/" = true
                 /\ In (ImageInfo.messageId i) (map Message.id messages))
         (imageDataOf result)
    /\ countsOf result = [List.length (imageDataOf result)].
Proof.
  unfold getImages. intros H.
  destruct (ensureDiscordReady client) as [[] | e]; [| discriminate].
  rewrite bind_Normal in H.
  destruct (fetchTextChannel client channelId) as [ch | e]; [| discriminate].
  rewrite bind_Normal in H.
  destruct (Channel.messages_fetch ch 0%nat (FetchOptions.make limit None None))
    as [[m | messages] | e] eqn:Hfetch; try discriminate.
  rewrite !bind_Normal in H. cbv zeta in H. injection H as <-.
  exists ch, messages.
  split; [reflexivity | split; [exact Hfetch |]].
  clear Hfetch.
  unfold imageDataOf, countsOf. simpl. rewrite !app_nil_r.
  split; [| split; [| reflexivity]].
  - induction messages as [|msg rest IH]; [reflexivity |].
    cbn [flat_map]. rewrite map_app, filter_app, map_app.
    now rewrite imagesOf_urls, IH.
  - induction messages as [|msg rest IH]; [constructor |].
    cbn [flat_map]. apply Forall_app. split.
    + eapply Forall_impl; [| exact (imagesOf_are_images msg)].
      intros i [Hct Hid]. split; [exact Hct |]. left. now symmetry.
    + eapply Forall_impl; [| exact IH].
      intros i [Hct Hid]. split; [exact Hct | now right].
Qed.

Lemma getImages_lists_the_image_attachments_witness :
  getImages Sample.smallClient (Some "42") 3%Q
  = Normal (callToolHandler Sample.parseDate Sample.smallClient
              (plainRequest "discord_get_images"
                 (withLimit (Some 3%Q) Sample.noArgs)))
  /\ map ImageInfo.messageId
       (imageDataOf (callToolHandler Sample.parseDate Sample.smallClient
                       (plainRequest "discord_get_images"
                          (withLimit (Some 3%Q) Sample.noArgs))))
     = ["24"; "22"]
  /\ exists textChannel messages,
       fetchTextChannel Sample.smallClient (Some "42") = Normal textChannel
       /\ Channel.messages_fetch textChannel 0%nat
            (FetchOptions.make 3%Q None None) = Normal (Collection messages)
       /\ map ImageInfo.url
            (imageDataOf (callToolHandler Sample.parseDate Sample.smallClient
                            (plainRequest "discord_get_images"
                               (withLimit (Some 3%Q) Sample.noArgs))))
          = map Attachment.url
              (filter isImage (flat_map Message.attachments messages)).
Proof.
  assert (H : getImages Sample.smallClient (Some "42") 3%Q
              = Normal (callToolHandler Sample.parseDate Sample.smallClient
                          (plainRequest "discord_get_images"
                             (withLimit (Some 3%Q) Sample.noArgs))))
    by (vm_compute; reflexivity).
  split; [exact H | split; [vm_compute; reflexivity |]].
  destruct (getImages_lists_the_image_attachments Sample.smallClient
              (Some "42") 3%Q _ H)
    as [ch [messages [Hch [Hfetch [Hurls _]]]]].
  exists ch, messages. split; [exact Hch | split; [exact Hfetch | exact Hurls]].
Defined.

(* ------------------------------------------------------------------ *)
(** ** Sending *)

(** X12.  When the channel rejects the [send], [discord_send_image]
    answers ["Error: Failed to send image: "] followed by the rendering of
    the thrown value (name and message of an [Error]), whereas
    [discord_send_message] answers ["Error: "] followed by the bare
    message; the picture is sent with the caption, or the empty string
    when there is none, and exactly one file. *)
Theorem send_failures_are_reported
    (parseDate : string -> Js.Date) (client : Client.t) (args : Args.t)
    (textChannel : Channel.t) (error : Js.Exn) :
  ensureDiscordReady client = Normal tt ->
  fetchTextChannel client (Args.channel_id args) = Normal textChannel ->
  (Channel.send textChannel
     (SendFiles (Js.orElse (Args.message args) "") [Args.image_path args])
   = Throw error ->
   callToolHandler parseDate client
     (Request.make "discord_send_image" (Some args))
   = textResult
       [Lit ("Error: Failed to send image: " ++ Js.toString error)%string])
  /\ (Channel.send textChannel (SendText (Args.message args)) = Throw error ->
      callToolHandler parseDate client
        (Request.make "discord_send_message" (Some args))
      = textResult [Lit ("Error: " ++ Js.messageOf error)%string]).
Proof.
  intros Hready Hch. split; intros Hsend.
  - unfold callToolHandler, toolSwitch. simpl. unfold sendImage.
    now rewrite Hready, Hch, !bind_Normal, Hsend.
  - unfold callToolHandler, toolSwitch. simpl. unfold sendMessage.
    now rewrite Hready, Hch, !bind_Normal, Hsend.
Qed.

Lemma send_failures_are_reported_witness :
  ensureDiscordReady Sample.readOnlyClient = Normal tt
  /\ fetchTextChannel Sample.readOnlyClient (Args.channel_id Sample.postcard)
     = Normal Sample.readOnlyChannel
  /\ callToolHandler Sample.parseDate Sample.readOnlyClient
       (Request.make "discord_send_image" (Some Sample.postcard))
     = textResult
         [Lit "Error: Failed to send image: DiscordAPIError: Missing Permissions"]
  /\ callToolHandler Sample.parseDate Sample.readOnlyClient
       (Request.make "discord_send_message" (Some Sample.postcard))
     = textResult [Lit "Error: Missing Permissions"].
Proof.
  destruct (send_failures_are_reported Sample.parseDate Sample.readOnlyClient
              Sample.postcard Sample.readOnlyChannel
              (Js.JsError "DiscordAPIError" "Missing Permissions")
              eq_refl eq_refl) as [Himage Hmessage].
  split; [reflexivity | split; [reflexivity | split]].
  - exact (Himage eq_refl).
  - exact (Hmessage eq_refl).
Defined.

(* ------------------------------------------------------------------ *)
(** ** The plain tools' limits and the advertised tools *)

(** X13.  A limit of 0, like an omitted one, makes [discord_get_messages]
    ask for 10 messages and [discord_get_images] for 50: the response is
    the one for that limit. *)
Theorem plain_tools_default_their_limit
    (parseDate : string -> Js.Date) (client : Client.t) (args : Args.t) :
  let run name limit :=
    callToolHandler parseDate client
      (plainRequest name (withLimit limit args)) in
  run "discord_get_messages" (Some 0%Q) = run "discord_get_messages" (Some 10%Q)
  /\ run "discord_get_messages" None = run "discord_get_messages" (Some 10%Q)
  /\ run "discord_get_images" (Some 0%Q) = run "discord_get_images" (Some 50%Q)
  /\ run "discord_get_images" None = run "discord_get_images" (Some 50%Q).
Proof. cbv zeta. repeat split. Qed.

(** X14.  The handler dispatches exactly the tools the server advertises:
    a name is in the advertised list if and only if the [switch] has a
    case for it, and a call with arguments under any other name is
    answered ["Error: Unknown tool: "] and the name.  Every advertised
    tool requires [channel_id], and requires only properties it
    declares. *)
Theorem advertised_tools_are_dispatched
    (parseDate : string -> Js.Date) (client : Client.t) :
  (forall name,
      In name (map Tool.name listTools) <-> knownTool name = true)
  /\ (forall name args,
         ~ In name (map Tool.name listTools) ->
         callToolHandler parseDate client (Request.make name (Some args))
         = textResult [Lit ("Error: Unknown tool: " ++ name)%string])
  /\ Forall (fun tool =>
               In "channel_id" (Tool.required tool)
               /\ incl (Tool.required tool)
                    (map Tool.key (Tool.properties tool)))
       listTools.
Proof.
  assert (Hiff : forall name,
             In name (map Tool.name listTools) <-> knownTool name = true).
  { intros name. unfold knownTool. simpl.
    rewrite !orb_true_iff, !String.eqb_eq. intuition congruence. }
  split; [exact Hiff | split].
  - intros name args Hnot.
    assert (Hknown : knownTool name = false).
    { destruct (knownTool name) eqn:E; [| reflexivity].
      elim Hnot. now apply Hiff. }
    unfold callToolHandler.
    now rewrite (toolSwitch_unknown parseDate client
                   (Request.make name (Some args)) args eq_refl Hknown).
  - repeat (apply Forall_cons || apply Forall_nil);
      (split; [now left | intros x Hx; simpl in Hx |- *; tauto]).
Qed.

(* ------------------------------------------------------------------ *)
(** ** Logging in *)

Lemma toolSwitch_loggedIn (parseDate : string -> Js.Date) (client : Client.t)
    (request : Request.t) :
  ensureDiscordReady client = Normal tt ->
  toolSwitch parseDate client request
  = toolSwitch parseDate (loggedIn client) request.
Proof.
  intros Hready.
  assert (Hready' : ensureDiscordReady (loggedIn client) = Normal tt)
    by reflexivity.
  assert (Hch : forall channelId,
             fetchTextChannel (loggedIn client) channelId
             = fetchTextChannel client channelId) by reflexivity.
  unfold toolSwitch.
  destruct (Request.arguments request) as [args|]; [| reflexivity].
  destruct (String.eqb (Request.name request) "discord_send_message");
    [unfold sendMessage; now rewrite Hready, Hready', Hch |].
  destruct (String.eqb (Request.name request) "discord_send_image");
    [unfold sendImage; now rewrite Hready, Hready', Hch |].
  destruct (String.eqb (Request.name request) "discord_get_messages");
    [unfold getMessages; now rewrite Hready, Hready', Hch |].
  destruct (String.eqb (Request.name request) "discord_get_images");
    [unfold getImages; now rewrite Hready, Hready', Hch |].
  destruct (String.eqb (Request.name request)
              "discord_get_messages_advanced"); [| reflexivity].
  unfold getMessagesAdvanced. now rewrite Hready, Hready', Hch.
Qed.

(** X15.  A client that is not ready logs in with its token before
    anything else: when the login is rejected, every advertised tool
    answers ["Error: "] and the message of the rejection; when it
    completes, the tool answers as it does for the same client already
    logged in. *)
Theorem login_comes_first
    (parseDate : string -> Js.Date) (client : Client.t) (request : Request.t)
    (token : string) :
  Client.isReady client = false ->
  Js.truthy (Client.token client) = Some token ->
  (forall args error,
      Request.arguments request = Some args ->
      knownTool (Request.name request) = true ->
      Client.login client token = Throw error ->
      callToolHandler parseDate client request
      = textResult [Lit ("Error: " ++ Js.messageOf error)%string])
  /\ (Client.login client token = Normal tt ->
      callToolHandler parseDate client request
      = callToolHandler parseDate (loggedIn client) request).
Proof.
  intros Hnot Htoken.
  assert (Hensure : ensureDiscordReady client = Client.login client token)
    by (unfold ensureDiscordReady; now rewrite Hnot, Htoken).
  split.
  - intros args error Hargs Hknown Hlogin.
    apply (caught parseDate client request error).
    apply (toolSwitch_not_ready parseDate client request args);
      [assumption | assumption | now rewrite Hensure].
  - intros Hlogin. unfold callToolHandler.
    rewrite (toolSwitch_loggedIn parseDate client request);
      [reflexivity | now rewrite Hensure].
Qed.

Lemma login_comes_first_witness :
  Client.isReady Sample.freshClient = false
  /\ Js.truthy (Client.token Sample.rejectedClient) = Some "expired"
  /\ callToolHandler Sample.parseDate Sample.rejectedClient
       (advancedRequest Sample.noArgs)
     = textResult [Lit "Error: An invalid token was provided."]
  /\ callToolHandler Sample.parseDate Sample.freshClient
       (advancedRequest Sample.twoErrors)
     = callToolHandler Sample.parseDate Sample.smallClient
         (advancedRequest Sample.twoErrors).
Proof.
  split; [reflexivity | split; [reflexivity | split]].
  - exact (proj1 (login_comes_first Sample.parseDate Sample.rejectedClient
                    (advancedRequest Sample.noArgs) "expired"
                    eq_refl eq_refl)
             Sample.noArgs _ eq_refl eq_refl eq_refl).
  - exact (proj2 (login_comes_first Sample.parseDate Sample.freshClient
                    (advancedRequest Sample.twoErrors) "token"
                    eq_refl eq_refl) eq_refl).
Defined.
